(** * bigDoors front end: session, data-access layer, router and view handlers

    A shallow embedding of [frontend/src/App.js].  The client is a React
    single-page application; the parts modelled here are

    - the values that flow through it (server payloads, tokens, drafts),
    - the [axios] calls, as requests appended to a trace and answered by
      the backend,
    - [AuthProvider] ([fetchCurrentUser], [login], [logout]),
    - the [api] object,
    - [ProtectedRoute] and the route table of [App],
    - the effect of [NavBar] that polls notifications,
    - [Home.fetchDoors] and [DoorDetail.handleSubmitComment].

    The handlers of the other views are modelled too: [Login] and
    [Register] ([handleSubmit]), [NavBar] ([handleNotificationClick],
    [unreadCount]), [MapView] ([fetchDoors]), [AddDoor] (the geolocation
    effect and [handleSubmit]) and [DoorDetail] ([fetchDoorAndComments]).

    An async function is run to completion: every [await] is a bind of the
    monad [M], and a handler reads the state of the render that created it
    (its closure) while the setters write the state of the next render.
    Calls to [console] and [toast] are left out; they change none of the
    state below. *)

From Stdlib Require Import ZArith Ascii String List.
From stdpp Require Import base option list strings gmap.

Local Open Scope Z_scope.
Set Warnings "-register-all".

(** ** Values *)

(** What a JavaScript expression of the program can evaluate to.  A string is
    its sequence of code units, one [ascii] each (code units below 256).  A
    number is carried by its canonical text, the result of [ToString]: the
    program never computes with numbers, it only tests and prints them.  An
    object is its own data properties in insertion order. *)
Inductive value : Type :=
  | VUndefined
  | VNull
  | VBool (b : bool)
  | VNum (repr : string)
  | VStr (s : string)
  | VArr (items : list value)
  | VObj (fields : list (string * value))
  | VFile (name : string).

(** [a.join(sep)] on texts already converted. *)
Fixpoint join (sep : string) (parts : list string) : string :=
  match parts with
  | [] => EmptyString
  | [p] => p
  | p :: rest => p +:+ sep +:+ join sep rest
  end.

(** [ToString], as applied by template literals, [FormData.append],
    [localStorage.setItem] and [new Error(message)]. *)
Fixpoint to_string (v : value) : string :=
  match v with
  | VUndefined => "undefined"
  | VNull => "null"
  | VBool true => "true"
  | VBool false => "false"
  | VNum repr => repr
  | VStr s => s
  | VArr items =>
      join ","
        ((fix elements (l : list value) : list string :=
            match l with
            | [] => []
            | VUndefined :: l' => EmptyString :: elements l'
            | VNull :: l' => EmptyString :: elements l'
            | x :: l' => to_string x :: elements l'
            end) items)
  | VObj _ => "[object Object]"
  | VFile _ => "[object File]"
  end.

(** [ToBoolean]: the test of [if], [?:], [!], [&&] and [||]. *)
Definition truthy (v : value) : bool :=
  match v with
  | VUndefined | VNull => false
  | VBool b => b
  | VNum repr => negb (String.eqb repr "0" || String.eqb repr "NaN")
  | VStr s => negb (String.eqb s EmptyString)
  | VArr _ | VObj _ | VFile _ => true
  end.

(** [a || b] *)
Definition or_else (a b : value) : value := if truthy a then a else b.

Definition nullish (v : value) : bool :=
  match v with
  | VUndefined | VNull => true
  | _ => false
  end.

(** The own property [key] of an object literal or parsed JSON object. *)
Fixpoint lookup_field (key : string) (fields : list (string * value)) : option value :=
  match fields with
  | [] => None
  | (k, v) :: rest => if String.eqb k key then Some v else lookup_field key rest
  end.

(** What is thrown: the rejection of an axios call, which carries
    [error.response] ([undefined] when the server sent nothing), a
    [TypeError] of the runtime, or an [Error] built by the program. *)
Inductive exn : Type :=
  | AxiosError (response : value)
  | TypeError (message : string)
  | Error (message : string).

(** [v.key] and the destructuring [const { key } = v].  Only data properties
    are looked up: the keys the program reads ([access_token], [data],
    [detail], [latitude], [longitude]) are not built-in properties of
    strings, arrays or files. *)
Definition get_prop (v : value) (key : string) : exn + value :=
  match v with
  | VUndefined => inl (TypeError ("Cannot read properties of undefined (reading '" +:+ key +:+ "')"))
  | VNull => inl (TypeError ("Cannot read properties of null (reading '" +:+ key +:+ "')"))
  | VObj fields => inr (default VUndefined (lookup_field key fields))
  | _ => inr VUndefined
  end.

(** [v?.key] *)
Definition opt_prop (v : value) (key : string) : value :=
  match get_prop v key with
  | inr x => x
  | inl _ => VUndefined
  end.

(** [error.response] *)
Definition exn_response (e : exn) : value :=
  match e with
  | AxiosError response => response
  | _ => VUndefined
  end.

(** [...v] inside an array literal *)
Definition spread (v : value) : exn + list value :=
  match v with
  | VArr items => inr items
  | VStr s => inr ((fun c => VStr (String c EmptyString)) <$> list_ascii_of_string s)
  | _ => inl (TypeError (to_string v +:+ " is not iterable"))
  end.

(** ** [String.prototype.trim] *)

(** White space and line terminators among the code units below 256: TAB, LF,
    VT, FF, CR, SP and NBSP. *)
Definition is_white_space (c : ascii) : bool :=
  match c with
  | "009" | "010" | "011" | "012" | "013" | " " | "160" => true
  | _ => false
  end%char.

Fixpoint trimStart (s : string) : string :=
  match s with
  | EmptyString => EmptyString
  | String c rest => if is_white_space c then trimStart rest else s
  end.

Definition trimEnd (s : string) : string := String.rev (trimStart (String.rev s)).

Definition trim (s : string) : string := trimEnd (trimStart s).

(** ** Requests, the backend and the browser *)

Inductive http_method : Type := GET | POST.

(** [new FormData()] and [formData.append(name, v)]: a file is kept, any
    other value is stored as its text. *)
Definition FormData : Type := list (string * value).

Definition FormData_append (fd : FormData) (name : string) (v : value) : FormData :=
  fd ++ [(name, match v with VFile _ => v | _ => VStr (to_string v) end)].

Inductive payload : Type :=
  | NoBody
  | Json (data : value)
  | Form (entries : FormData).

(** The second or third argument of [axios.get] and [axios.post]. *)
Record config : Type := Config { headers : gmap string string }.

(** One call of axios, with the headers the program itself asks for. *)
Record request : Type := Request {
  method : http_method;
  url : string;
  body : payload;
  req_headers : gmap string string
}.

(** How a request ends: [response.data] of a fulfilled call, or
    [error.response] of a rejected one. *)
Inductive outcome : Type :=
  | Fulfilled (data : value)
  | Rejected (response : value).

(** The REST backend the client consumes, and the build-time
    [process.env.REACT_APP_BACKEND_URL].  The answer to a request may depend
    on the requests sent before it. *)
Class Backend : Type := {
  BACKEND_URL : value;
  server : list request → request → outcome
}.

(** A timer registered with [setInterval(callback, delay)]. *)
Inductive callback : Type := fetchNotifications_cb.

Record interval : Type := Interval { handler : callback; delay : Z }.

(** The browser around a component with state [C]: [localStorage], the
    requests sent so far, the interval timers that are set, and the state
    the component will be rendered with next. *)
Record world (C : Type) : Type := World {
  localStorage : gmap string string;
  sent : list request;
  intervals : list interval;
  ui : C
}.
Arguments World {C} _ _ _ _.
Arguments localStorage {C} _.
Arguments sent {C} _.
Arguments intervals {C} _.
Arguments ui {C} _.

(** ** The monad of handlers: state and exceptions *)

Definition M (C A : Type) : Type := world C → world C * (exn + A).

Definition ret {C A} (a : A) : M C A := λ w, (w, inr a).

Definition throw {C A} (e : exn) : M C A := λ w, (w, inl e).

Definition bind {C A B} (m : M C A) (k : A → M C B) : M C B :=
  λ w, match m w with
       | (w', inr a) => k a w'
       | (w', inl e) => (w', inl e)
       end.

(** [try { m } catch (error) { h error }] *)
Definition try_catch {C A} (m : M C A) (h : exn → M C A) : M C A :=
  λ w, match m w with
       | (w', inl e) => h e w'
       | r => r
       end.

(** [try { m } finally { f }] *)
Definition try_finally {C A} (m : M C A) (f : M C unit) : M C A :=
  λ w, match m w with
       | (w', r) =>
           match f w' with
           | (w'', inl e) => (w'', inl e)
           | (w'', inr _) => (w'', r)
           end
       end.

(** Lifts a partial operation of the language, such as [get_prop]. *)
Definition lift {C A} (r : exn + A) : M C A := λ w, (w, r).

Declare Scope js_scope.
Delimit Scope js_scope with js.
Notation "'let*' x ':=' m 'in' k" := (bind m (λ x, k))
  (at level 10, x name, m at level 100, k at level 200) : js_scope.
Notation "m ';;' k" := (bind m (λ _, k))
  (at level 100, k at level 200, right associativity) : js_scope.
Local Open Scope js_scope.

(** The state after a handler, and what it returned or threw. *)
Definition exec {C A} (m : M C A) (w : world C) : world C := fst (m w).
Definition result {C A} (m : M C A) (w : world C) : exn + A := snd (m w).

(** The requests a handler sent when run from [w]. *)
Definition requests {C A} (m : M C A) (w : world C) : list request :=
  drop (length (sent w)) (sent (exec m w)).

(** A state setter of [useState]. *)
Definition set_ui {C} (f : C → C) : M C unit :=
  λ w, (World (localStorage w) (sent w) (intervals w) (f (ui w)), inr tt).

Definition localStorage_getItem (store : gmap string string) (key : string) : value :=
  match store !! key with
  | Some s => VStr s
  | None => VNull
  end.

Definition localStorage_setItem {C} (key : string) (v : value) : M C unit :=
  λ w, (World (<[key := to_string v]> (localStorage w)) (sent w) (intervals w) (ui w), inr tt).

Definition localStorage_removeItem {C} (key : string) : M C unit :=
  λ w, (World (delete key (localStorage w)) (sent w) (intervals w) (ui w), inr tt).

Definition setInterval {C} (cb : callback) (ms : Z) : M C interval :=
  λ w, let t := Interval cb ms in
       (World (localStorage w) (sent w) (intervals w ++ [t]) (ui w), inr t).

Section axios.
Context `{Backend} {C : Type}.

(** The promise of an axios call, awaited: the request joins the trace and
    the backend settles it.  The program reads only [response.data]. *)
Definition axios_request (r : request) : M C value :=
  λ w, let w' := World (localStorage w) (sent w ++ [r]) (intervals w) (ui w) in
       match server (sent w) r with
       | Fulfilled data => (w', inr data)
       | Rejected response => (w', inl (AxiosError response))
       end.

Definition axios_get (u : string) (c : config) : M C value :=
  axios_request (Request GET u NoBody (headers c)).

Definition axios_post (u : string) (b : payload) (c : config) : M C value :=
  axios_request (Request POST u b (headers c)).
End axios.

(** [const API = `${BACKEND_URL}/api`] *)
Definition API `{Backend} : string := to_string BACKEND_URL +:+ "/api".

(** ** The [api] object *)

Module api.
Section api.
Context `{Backend} {C : Type}.

Definition getHeaders (token : value) : config :=
  Config {[ "Authorization" := "Bearer " +:+ to_string token ]}.

(** The parameter [category = null]: [VUndefined] is the argument left
    out, as in the call of [MapView]. *)
Definition getDoors (token : value) (category : value) : M C value :=
  let category := match category with VUndefined => VNull | _ => category end in
  try_catch
    (let url :=
       if truthy category
       then API +:+ "/doors?category=" +:+ to_string category
       else API +:+ "/doors" in
     let* data := axios_get url (getHeaders token) in
     ret data)
    (λ error, throw error).

Definition getDoor (token : value) (doorId : value) : M C value :=
  try_catch
    (let* data := axios_get (API +:+ "/doors/" +:+ to_string doorId) (getHeaders token) in
     ret data)
    (λ error, throw error).

(** [doorData] is the object literal built by [AddDoor.handleSubmit],
    given by its properties.  [Object.keys(doorData).forEach] is the fold
    over the keys. *)
Definition createDoor (token : value) (doorData : list (string * value)) : M C value :=
  try_catch
    (let formData :=
       foldl (λ fd key,
                if negb (String.eqb key "location")
                then FormData_append fd key (default VUndefined (lookup_field key doorData))
                else fd)
             [] (fst <$> doorData) in
     let location := default VUndefined (lookup_field "location" doorData) in
     let* latitude := lift (get_prop location "latitude") in
     let formData := FormData_append formData "latitude" latitude in
     let* longitude := lift (get_prop location "longitude") in
     let formData := FormData_append formData "longitude" longitude in
     let* data :=
       axios_post (API +:+ "/doors") (Form formData)
         (Config (<[ "Content-Type" := "multipart/form-data" ]> (headers (getHeaders token)))) in
     ret data)
    (λ error, throw error).

Definition getComments (token : value) (doorId : value) : M C value :=
  try_catch
    (let* data := axios_get (API +:+ "/comments/" +:+ to_string doorId) (getHeaders token) in
     ret data)
    (λ error, throw error).

Definition createComment (token : value) (comment : value) : M C value :=
  try_catch
    (let* data := axios_post (API +:+ "/comments") (Json comment) (getHeaders token) in
     ret data)
    (λ error, throw error).

Definition getNotifications (token : value) : M C value :=
  try_catch
    (let* data := axios_get (API +:+ "/notifications") (getHeaders token) in
     ret data)
    (λ error, throw error).

Definition markNotificationAsRead (token : value) (notificationId : value) : M C value :=
  try_catch
    (axios_post (API +:+ "/notifications/" +:+ to_string notificationId +:+ "/read")
       (Json (VObj [])) (getHeaders token);;
     ret VUndefined)
    (λ error, throw error).
End api.
End api.

(** A call of one of the seven data-access operations, with its arguments
    after the token. *)
Inductive api_call : Type :=
  | call_getDoors (category : value)
  | call_getDoor (doorId : value)
  | call_createDoor (doorData : list (string * value))
  | call_getComments (doorId : value)
  | call_createComment (comment : value)
  | call_getNotifications
  | call_markNotificationAsRead (notificationId : value).

Definition api_run `{Backend} {C : Type} (token : value) (c : api_call) : M C value :=
  match c with
  | call_getDoors category => api.getDoors token category
  | call_getDoor doorId => api.getDoor token doorId
  | call_createDoor doorData => api.createDoor token doorData
  | call_getComments doorId => api.getComments token doorId
  | call_createComment comment => api.createComment token comment
  | call_getNotifications => api.getNotifications token
  | call_markNotificationAsRead notificationId => api.markNotificationAsRead token notificationId
  end.

(** ** [AuthProvider] *)

Module AuthProvider.
(** The three [useState] cells. *)
Record state : Type := State {
  currentUser : value;
  loading : bool;
  token : value
}.

(** The first render: [useState(null)], [useState(true)],
    [useState(localStorage.getItem('token'))]. *)
Definition init (store : gmap string string) : state :=
  State VNull true (localStorage_getItem store "token").

Definition setCurrentUser (v : value) : M state unit :=
  set_ui (λ s, State v (loading s) (token s)).
Definition setLoading (b : bool) : M state unit :=
  set_ui (λ s, State (currentUser s) b (token s)).
Definition setToken (v : value) : M state unit :=
  set_ui (λ s, State (currentUser s) (loading s) v).

Definition logout : M state unit :=
  localStorage_removeItem "token";;
  setToken VNull;;
  setCurrentUser VNull.

(** [isAuthenticated: !!currentUser] *)
Definition isAuthenticated (s : state) : bool := negb (negb (truthy (currentUser s))).

Section AuthProvider.
Context `{Backend}.

(** [token] is the one of the render whose effect runs. *)
Definition fetchCurrentUser (token : value) : M state unit :=
  try_finally
    (try_catch
       (let* data :=
          axios_get (API +:+ "/users/me")
            (Config {[ "Authorization" := "Bearer " +:+ to_string token ]}) in
        setCurrentUser data)
       (λ error, logout))
    (setLoading false).

(** [useEffect(..., [token])] *)
Definition effect (token : value) : M state unit :=
  if truthy token then fetchCurrentUser token else setLoading false.

Definition login (email password : string) : M state bool :=
  try_catch
    (let formData := FormData_append [] "username" (VStr email) in
     let formData := FormData_append formData "password" (VStr password) in
     let* data :=
       axios_post (API +:+ "/token") (Form formData)
         (Config {[ "Content-Type" := "application/x-www-form-urlencoded" ]}) in
     let* access_token := lift (get_prop data "access_token") in
     localStorage_setItem "token" access_token;;
     setToken access_token;;
     ret true)
    (λ error,
       throw (Error (to_string
         (or_else (opt_prop (opt_prop (exn_response error) "data") "detail")
                  (VStr "Login failed"))))).

Definition register (name email password : string) : M state bool :=
  try_catch
    (axios_post (API +:+ "/register")
       (Json (VObj [("name", VStr name); ("email", VStr email); ("password", VStr password)]))
       (Config ∅);;
     ret true)
    (λ error,
       throw (Error (to_string
         (or_else (opt_prop (opt_prop (exn_response error) "data") "detail")
                  (VStr "Registration failed"))))).

(** The page is loaded with [store] in [localStorage]: the provider is
    mounted and its effect runs with the token of the first render. *)
Definition mount (store : gmap string string) (trace : list request) : world state :=
  World store trace [] (init store).

Definition restore_session (store : gmap string string) (trace : list request) : world state :=
  exec (effect (token (init store))) (mount store trace).
End AuthProvider.
End AuthProvider.

(** ** Components under the session and the router *)

(** A component that calls [useAuth()] and [useNavigate()] is rendered with
    the state of [AuthProvider], with its own state, and leaves the
    locations it navigated to, oldest first. *)
Record page (C : Type) : Type := Page {
  auth : AuthProvider.state;
  own : C;
  navigated : list string
}.
Arguments Page {C} _ _ _.
Arguments auth {C} _.
Arguments own {C} _.
Arguments navigated {C} _.

(** An operation of [AuthProvider], called from a component. *)
Definition with_auth {C A} (m : M AuthProvider.state A) : M (page C) A :=
  λ w, match m (World (localStorage w) (sent w) (intervals w) (auth (ui w))) with
       | (w', r) =>
           (World (localStorage w') (sent w') (intervals w')
              (Page (ui w') (own (ui w)) (navigated (ui w))), r)
       end.

(** An operation on the component's own state. *)
Definition with_own {C A} (m : M C A) : M (page C) A :=
  λ w, match m (World (localStorage w) (sent w) (intervals w) (own (ui w))) with
       | (w', r) =>
           (World (localStorage w') (sent w') (intervals w')
              (Page (auth (ui w)) (ui w') (navigated (ui w))), r)
       end.

(** [navigate(to)] *)
Definition navigate {C} (to : string) : M (page C) unit :=
  set_ui (λ p, Page (auth p) (own p) (navigated p ++ [to])).

(** [error.message].  An [Error] carries the message it was built with; for
    a rejection the text is the one axios words: the status of the answer,
    or a network error when there is none. *)
Definition exn_message (e : exn) : string :=
  match e with
  | Error message | TypeError message => message
  | AxiosError response =>
      if nullish response then "Network Error"
      else "Request failed with status code " +:+ to_string (opt_prop response "status")
  end.

(** ** [ProtectedRoute] and the routes of [App] *)

(** The components a route can show. *)
Inductive view : Type :=
  | Home_view
  | Login_view
  | Register_view
  | MapView_view
  | AddDoor_view
  | DoorDetail_view
  | NotFound_view.

(** What a route renders: a component with the parameters of the URL, or
    [<Navigate to=... />]. *)
Inductive rendered : Type :=
  | Show (v : view) (params : list (string * string))
  | Navigate (to : string).

Definition ProtectedRoute (isAuthenticated : bool) (children : rendered) : rendered :=
  if negb isAuthenticated then Navigate "/login" else children.

(** The [element] of a [<Route>]: a component, bare or wrapped in
    [<ProtectedRoute>]. *)
Inductive element : Type :=
  | Bare (v : view)
  | Protected (children : view).

(** A [path] of the table, by segments: ["/doors/:id"] is
    [[Static "doors"; Dynamic "id"]], ["*"] is [Splat]. *)
Inductive segment : Type :=
  | Static (name : string)
  | Dynamic (param : string).

Inductive pattern : Type :=
  | Path (segments : list segment)
  | Splat.

Record Route : Type := MkRoute { path : pattern; route_element : element }.

(** The children of [<Routes>] in [App], in the order written. *)
Definition App_routes : list Route :=
  [ MkRoute (Path []) (Bare Home_view);
    MkRoute (Path [Static "login"]) (Bare Login_view);
    MkRoute (Path [Static "register"]) (Bare Register_view);
    MkRoute (Path [Static "map"]) (Protected MapView_view);
    MkRoute (Path [Static "add-door"]) (Protected AddDoor_view);
    MkRoute (Path [Static "doors"; Dynamic "id"]) (Protected DoorDetail_view);
    MkRoute Splat (Bare NotFound_view) ].

(** A location is the list of the segments of its pathname, ["/doors/7"]
    being [["doors"; "7"]].  A static segment matches itself, a dynamic one
    binds any segment. *)
Fixpoint match_segments (segs : list segment) (location : list string)
    : option (list (string * string)) :=
  match segs, location with
  | [], [] => Some []
  | Static name :: segs', s :: location' =>
      if String.eqb name s then match_segments segs' location' else None
  | Dynamic param :: segs', s :: location' =>
      match match_segments segs' location' with
      | Some params => Some ((param, s) :: params)
      | None => None
      end
  | _, _ => None
  end.

Definition match_pattern (p : pattern) (location : list string)
    : option (list (string * string)) :=
  match p with
  | Path segs => match_segments segs location
  | Splat => Some []
  end.

(** The route chosen for a location: no two paths of [App_routes] other
    than ["*"] match the same location, and ["*"] comes last. *)
Fixpoint match_route (routes : list Route) (location : list string)
    : option (element * list (string * string)) :=
  match routes with
  | [] => None
  | r :: rest =>
      match match_pattern (path r) location with
      | Some params => Some (route_element r, params)
      | None => match_route rest location
      end
  end.

Definition render_element (isAuthenticated : bool) (e : element)
    (params : list (string * string)) : rendered :=
  match e with
  | Bare v => Show v params
  | Protected v => ProtectedRoute isAuthenticated (Show v params)
  end.

(** [<Routes>] under the context value of [AuthProvider]. *)
Definition Routes (isAuthenticated : bool) (location : list string) : option rendered :=
  match match_route App_routes location with
  | Some (e, params) => Some (render_element isAuthenticated e params)
  | None => None
  end.

(** [App]: [AuthProvider] renders [{!loading && children}], the children
    being the router. *)
Definition App (auth : AuthProvider.state) (location : list string) : option rendered :=
  if negb (AuthProvider.loading auth)
  then Routes (AuthProvider.isAuthenticated auth) location
  else None.

(** ** [NavBar]: notification polling *)

Module NavBar.
Record state : Type := State {
  notifications : value;
  showNotifications : bool
}.

Definition init : state := State (VArr []) false.

Definition setNotifications (v : value) : M state unit :=
  set_ui (λ s, State v (showNotifications s)).

Definition setShowNotifications (b : bool) : M state unit :=
  set_ui (λ s, State (notifications s) b).

(** [notifications.filter(n => !n.is_read).length], computed at each
    render; it throws when [notifications] is no array or holds [null]. *)
Definition unreadCount (notifications : value) : exn + nat :=
  match notifications with
  | VArr items =>
      (fix count (l : list value) : exn + nat :=
         match l with
         | [] => inr 0%nat
         | n :: l' =>
             match get_prop n "is_read" with
             | inl e => inl e
             | inr is_read =>
                 match count l' with
                 | inl e => inl e
                 | inr k => inr (if negb (truthy is_read) then S k else k)
                 end
             end
         end) items
  | VUndefined | VNull =>
      match get_prop notifications "filter" with
      | inl e => inl e
      | inr _ => inr 0%nat
      end
  | _ => inl (TypeError "notifications.filter is not a function")
  end.

Section NavBar.
Context `{Backend}.

Definition fetchNotifications (token : value) : M state unit :=
  try_catch
    (let* data := api.getNotifications token in
     setNotifications data)
    (λ error, ret tt).

(** [useEffect(..., [token])]; the result is the timer that the cleanup
    of the effect hands to [clearInterval]. *)
Definition effect (token : value) : M state (option interval) :=
  if truthy token
  then
    fetchNotifications token;;
    let* interval := setInterval fetchNotifications_cb 30000 in
    ret (Some interval)
  else ret None.

(** [token] is the one of the render that created the handler.  The call
    of [fetchNotifications] is not awaited: it catches what it throws, and
    writes a cell that the rest of the handler does not touch. *)
Definition handleNotificationClick (token notification : value) : M (page state) unit :=
  try_catch
    (let* id := lift (get_prop notification "id") in
     api.markNotificationAsRead token id;;
     with_own (fetchNotifications token);;
     let* door_id := lift (get_prop notification "door_id") in
     navigate ("/doors/" +:+ to_string door_id);;
     with_own (setShowNotifications false))
    (λ error, ret tt).
End NavBar.
End NavBar.

(** The instant of the [n]-th run of the callback of a timer set at
    [start], in milliseconds. *)
Definition fires_at (start : Z) (t : interval) (n : nat) : Z :=
  start + Z.of_nat (S n) * delay t.

(** ** [Home]: the door list *)

(** The two categories of a door. *)
Inductive Category : Type := A | B.

Definition Category_name (c : Category) : string :=
  match c with
  | A => "A"
  | B => "B"
  end.

(** The three filter buttons, by their labels. *)
Inductive filter_button : Type :=
  | All_Doors
  | Category_A
  | Category_B.

Module Home.
Record state : Type := State {
  doors : value;
  loading : bool;
  activeCategory : value
}.

Definition init : state := State (VArr []) true VNull.

Definition setDoors (v : value) : M state unit :=
  set_ui (λ s, State v (loading s) (activeCategory s)).
Definition setLoading (b : bool) : M state unit :=
  set_ui (λ s, State (doors s) b (activeCategory s)).
Definition setActiveCategory (v : value) : M state unit :=
  set_ui (λ s, State (doors s) (loading s) v).

(** The [onClick] of the filter buttons. *)
Definition onClick (b : filter_button) : M state unit :=
  match b with
  | All_Doors => setActiveCategory VNull
  | Category_A => setActiveCategory (VStr "A")
  | Category_B => setActiveCategory (VStr "B")
  end.

(** The active category as a state value: [null], ['A'] or ['B']. *)
Definition category_value (c : option Category) : value :=
  match c with
  | None => VNull
  | Some c => VStr (Category_name c)
  end.

Section Home.
Context `{Backend}.

(** [token] and [activeCategory] are those of the render whose effect
    runs. *)
Definition fetchDoors (token : value) (activeCategory : value) : M state unit :=
  try_finally
    (try_catch
       (setLoading true;;
        let* data := api.getDoors token activeCategory in
        setDoors data)
       (λ error, ret tt))
    (setLoading false).

(** [useEffect(..., [isAuthenticated, activeCategory])] *)
Definition effect (isAuthenticated : bool) (token : value) : M state unit :=
  λ w, if isAuthenticated
       then fetchDoors token (activeCategory (ui w)) w
       else ret tt w.
End Home.
End Home.

(** ** [DoorDetail]: comments *)

Module DoorDetail.
Record state : Type := State {
  door : value;
  comments : value;
  newComment : string;
  loading : bool;
  submitting : bool
}.

Definition init : state := State VNull (VArr []) EmptyString true false.

Definition setComments (v : value) : M state unit :=
  set_ui (λ s, State (door s) v (newComment s) (loading s) (submitting s)).
Definition setNewComment (v : string) : M state unit :=
  set_ui (λ s, State (door s) (comments s) v (loading s) (submitting s)).
Definition setSubmitting (b : bool) : M state unit :=
  set_ui (λ s, State (door s) (comments s) (newComment s) (loading s) b).

Definition setDoor (v : value) : M state unit :=
  set_ui (λ s, State v (comments s) (newComment s) (loading s) (submitting s)).
Definition setLoading (b : bool) : M state unit :=
  set_ui (λ s, State (door s) (comments s) (newComment s) b (submitting s)).

Section DoorDetail.
Context `{Backend}.

(** [token], [id], [comments] and [newComment] are those of the render
    that created the handler.  [e.preventDefault()] touches none of the
    state. *)
Definition handleSubmitComment (token id comments : value) (newComment : string)
    : M state unit :=
  if negb (truthy (VStr (trim newComment))) then ret tt
  else
    setSubmitting true;;
    try_finally
      (try_catch
         (let comment := VObj [("text", VStr newComment); ("door_id", id)] in
          let* createdComment := api.createComment token comment in
          let* items := lift (spread comments) in
          setComments (VArr (items ++ [createdComment]));;
          setNewComment EmptyString)
         (λ error, ret tt))
      (setSubmitting false).

(** The form is submitted: the handler of the current render runs. *)
Definition onSubmit (token id : value) : M state unit :=
  λ w, handleSubmitComment token id (comments (ui w)) (newComment (ui w)) w.

(** The effect [useEffect(..., [id, token, navigate])]. *)
Definition fetchDoorAndComments (token id : value) : M (page state) unit :=
  try_finally
    (try_catch
       (with_own (setLoading true);;
        let* doorData := api.getDoor token id in
        with_own (setDoor doorData);;
        let* commentsData := api.getComments token id in
        with_own (setComments commentsData))
       (λ error, navigate "/"))
    (with_own (setLoading false)).
End DoorDetail.
End DoorDetail.

(** ** [Login] and [Register]: the forms *)

Module Login.
Record state : Type := State {
  email : string;
  password : string;
  loading : bool;
  error : string
}.

Definition init : state := State EmptyString EmptyString false EmptyString.

Definition setEmail (v : string) : M state unit :=
  set_ui (λ s, State v (password s) (loading s) (error s)).
Definition setPassword (v : string) : M state unit :=
  set_ui (λ s, State (email s) v (loading s) (error s)).
Definition setLoading (b : bool) : M state unit :=
  set_ui (λ s, State (email s) (password s) b (error s)).
Definition setError (v : string) : M state unit :=
  set_ui (λ s, State (email s) (password s) (loading s) v).

Section Login.
Context `{Backend}.

(** [email] and [password] are those of the render that created the
    handler. *)
Definition handleSubmit (email password : string) : M (page state) unit :=
  with_own (setLoading true);;
  with_own (setError EmptyString);;
  try_finally
    (try_catch
       (with_auth (AuthProvider.login email password);;
        navigate "/")
       (λ error, with_own (setError (exn_message error))))
    (with_own (setLoading false)).

(** The form is submitted: the handler of the current render runs. *)
Definition onSubmit : M (page state) unit :=
  λ w, handleSubmit (email (own (ui w))) (password (own (ui w))) w.
End Login.
End Login.

Module Register.
Record state : Type := State {
  name : string;
  email : string;
  password : string;
  confirmPassword : string;
  loading : bool;
  error : string
}.

Definition init : state :=
  State EmptyString EmptyString EmptyString EmptyString false EmptyString.

Definition setLoading (b : bool) : M state unit :=
  set_ui (λ s, State (name s) (email s) (password s) (confirmPassword s) b (error s)).
Definition setError (v : string) : M state unit :=
  set_ui (λ s, State (name s) (email s) (password s) (confirmPassword s) (loading s) v).

Section Register.
Context `{Backend}.

Definition handleSubmit (name email password confirmPassword : string)
    : M (page state) unit :=
  if negb (String.eqb password confirmPassword)
  then with_own (setError "Passwords do not match")
  else
    with_own (setLoading true);;
    with_own (setError EmptyString);;
    try_finally
      (try_catch
         (with_auth (AuthProvider.register name email password);;
          with_auth (AuthProvider.login email password);;
          navigate "/")
         (λ error, with_own (setError (exn_message error))))
      (with_own (setLoading false)).

Definition onSubmit : M (page state) unit :=
  λ w, let s := own (ui w) in
       handleSubmit (name s) (email s) (password s) (confirmPassword s) w.
End Register.
End Register.

(** ** [MapView]: the doors on the map *)

Module MapView.
Record state : Type := State {
  doors : value;
  loading : bool;
  viewport : value
}.

Definition init : state :=
  State (VArr []) true
    (VObj [("latitude", VNum "40.7128"); ("longitude", VNum "-74.006");
           ("zoom", VNum "12")]).

Definition setDoors (v : value) : M state unit :=
  set_ui (λ s, State v (loading s) (viewport s)).
Definition setLoading (b : bool) : M state unit :=
  set_ui (λ s, State (doors s) b (viewport s)).

Section MapView.
Context `{Backend}.

(** The effect [useEffect(..., [token])]: [api.getDoors(token)], with no
    category. *)
Definition fetchDoors (token : value) : M state unit :=
  try_finally
    (try_catch
       (setLoading true;;
        let* data := api.getDoors token VUndefined in
        setDoors data)
       (λ error, ret tt))
    (setLoading false).
End MapView.
End MapView.

(** ** [AddDoor]: the submission form *)

(** What [navigator.geolocation] does for the effect of [AddDoor]: it is
    missing, it has not answered, it fails, or it gives a position. *)
Inductive geolocation : Type :=
  | Unsupported
  | Pending
  | Failed
  | Position (latitude longitude : value).

Module AddDoor.
Record state : Type := State {
  title : string;
  description : string;
  placeName : string;
  history : string;
  category : string;
  image : value;
  imagePreview : value;
  location : value;
  loadingLocation : bool;
  submitting : bool;
  error : string
}.

Definition init : state :=
  State EmptyString EmptyString EmptyString EmptyString EmptyString
    VNull VNull VNull true false EmptyString.

Definition setLocation (v : value) : M state unit :=
  set_ui (λ s, State (title s) (description s) (placeName s) (history s) (category s)
                 (image s) (imagePreview s) v (loadingLocation s) (submitting s) (error s)).
Definition setLoadingLocation (b : bool) : M state unit :=
  set_ui (λ s, State (title s) (description s) (placeName s) (history s) (category s)
                 (image s) (imagePreview s) (location s) b (submitting s) (error s)).
Definition setSubmitting (b : bool) : M state unit :=
  set_ui (λ s, State (title s) (description s) (placeName s) (history s) (category s)
                 (image s) (imagePreview s) (location s) (loadingLocation s) b (error s)).
Definition setError (v : string) : M state unit :=
  set_ui (λ s, State (title s) (description s) (placeName s) (history s) (category s)
                 (image s) (imagePreview s) (location s) (loadingLocation s)
                 (submitting s) v).

(** The effect [useEffect(..., [])], with the callbacks of
    [getCurrentPosition] run when the browser answers. *)
Definition effect (g : geolocation) : M state unit :=
  match g with
  | Position latitude longitude =>
      setLocation (VObj [("latitude", latitude); ("longitude", longitude)]);;
      setLoadingLocation false
  | Failed =>
      setError "Failed to get your location. Please allow location access.";;
      setLoadingLocation false
  | Pending => ret tt
  | Unsupported =>
      setError "Geolocation is not supported by your browser";;
      setLoadingLocation false
  end.

(** The object literal [doorData] of [handleSubmit]. *)
Definition doorData (s : state) : list (string * value) :=
  [("title", VStr (title s)); ("description", VStr (description s));
   ("place_name", VStr (placeName s)); ("history", VStr (history s));
   ("category", VStr (category s)); ("location", location s); ("image", image s)].

Section AddDoor.
Context `{Backend}.

(** [token] and the state [s] are those of the render that created the
    handler. *)
Definition handleSubmit (token : value) (s : state) : M (page state) unit :=
  if negb (truthy (image s)) then with_own (setError "Please select an image")
  else if negb (truthy (VStr (category s))) then with_own (setError "Please select a category")
  else if negb (truthy (location s))
  then with_own (setError "Location is required. Please allow location access.")
  else
    with_own (setSubmitting true);;
    with_own (setError EmptyString);;
    try_finally
      (try_catch
         (api.createDoor token (doorData s);;
          navigate "/")
         (λ error, with_own (setError "Failed to add door. Please try again.")))
      (with_own (setSubmitting false)).

Definition onSubmit (token : value) : M (page state) unit :=
  λ w, handleSubmit token (own (ui w)) w.
End AddDoor.
End AddDoor.

(** ** A backend to run the client against *)

Definition demo_user : value :=
  VObj [("id", VStr "u1"); ("name", VStr "Ada"); ("email", VStr "ada@example.org")].

Definition demo_door (category : string) : value :=
  VObj [("id", VStr ("door-" +:+ category)); ("title", VStr "Blue gate");
        ("category", VStr category)].

Definition demo_unauthorized : value :=
  VObj [("status", VNum "401");
        ("data", VObj [("detail", VStr "Incorrect email or password")])].

(** Issues the token [jwt-<email>] for the password [hunter2], knows the
    user of [jwt-ada@example.org], serves one door per category and echoes
    a created comment with an id. *)
Definition demo_server (trace : list request) (r : request) : outcome :=
  if String.eqb (url r) "http://localhost:8001/api/token" then
    match body r with
    | Form [(_, VStr email); (_, VStr password)] =>
        if String.eqb password "hunter2"
        then Fulfilled (VObj [("access_token", VStr ("jwt-" +:+ email));
                              ("token_type", VStr "bearer")])
        else Rejected demo_unauthorized
    | _ => Rejected demo_unauthorized
    end
  else if String.eqb (url r) "http://localhost:8001/api/users/me" then
    if bool_decide (req_headers r !! "Authorization" = Some "Bearer jwt-ada@example.org")
    then Fulfilled demo_user
    else Rejected demo_unauthorized
  else if String.eqb (url r) "http://localhost:8001/api/doors" then
    Fulfilled (VArr [demo_door "A"; demo_door "B"])
  else if String.eqb (url r) "http://localhost:8001/api/doors?category=A" then
    Fulfilled (VArr [demo_door "A"])
  else if String.eqb (url r) "http://localhost:8001/api/doors?category=B" then
    Fulfilled (VArr [demo_door "B"])
  else if String.eqb (url r) "http://localhost:8001/api/comments" then
    match body r with
    | Json (VObj fields) => Fulfilled (VObj (("id", VStr "c9") :: fields))
    | _ => Rejected VUndefined
    end
  else Rejected VUndefined.

Definition demo_backend : Backend :=
  {| BACKEND_URL := VStr "http://localhost:8001"; server := demo_server |}.

(** A browser with nothing stored, nothing sent and no timer. *)
Definition new_tab {C : Type} (c : C) : world C := World ∅ [] [] c.

(** ** What the operations send *)

(** The [POST] of [login]. *)
Definition token_request `{Backend} (email password : string) : request :=
  Request POST (API +:+ "/token")
    (Form [("username", VStr email); ("password", VStr password)])
    {[ "Content-Type" := "application/x-www-form-urlencoded" ]}.

(** The [GET] of [fetchCurrentUser]. *)
Definition users_me_request `{Backend} (token : value) : request :=
  Request GET (API +:+ "/users/me") NoBody
    {[ "Authorization" := "Bearer " +:+ to_string token ]}.

(** The [GET] of [api.getDoors] for an active category of [Home]. *)
Definition doors_request `{Backend} (token : value) (c : option Category) : request :=
  Request GET
    (match c with
     | Some c => API +:+ "/doors?category=" +:+ Category_name c
     | None => API +:+ "/doors"
     end)
    NoBody {[ "Authorization" := "Bearer " +:+ to_string token ]}.

(** The [POST] of [api.createComment] for a draft. *)
Definition comment_request `{Backend} (token id : value) (draft : string) : request :=
  Request POST (API +:+ "/comments")
    (Json (VObj [("text", VStr draft); ("door_id", id)]))
    {[ "Authorization" := "Bearer " +:+ to_string token ]}.

(** Whether an operation of [api] gets as far as its axios call:
    [createDoor] throws before it when [doorData.location] is [null] or
    [undefined]. *)
Definition reaches_axios (c : api_call) : bool :=
  match c with
  | call_createDoor doorData =>
      negb (nullish (default VUndefined (lookup_field "location" doorData)))
  | _ => true
  end.

(** The views behind [<ProtectedRoute>]. *)
Definition protected_view (v : view) : bool :=
  match v with
  | MapView_view | AddDoor_view | DoorDetail_view => true
  | _ => false
  end.

(** The [POST] of [register]. *)
Definition register_request `{Backend} (name email password : string) : request :=
  Request POST (API +:+ "/register")
    (Json (VObj [("name", VStr name); ("email", VStr email); ("password", VStr password)]))
    ∅.

(** The requests of the other operations of [api]. *)
Definition door_request `{Backend} (token doorId : value) : request :=
  Request GET (API +:+ "/doors/" +:+ to_string doorId) NoBody
    {[ "Authorization" := "Bearer " +:+ to_string token ]}.

Definition comments_request `{Backend} (token doorId : value) : request :=
  Request GET (API +:+ "/comments/" +:+ to_string doorId) NoBody
    {[ "Authorization" := "Bearer " +:+ to_string token ]}.

Definition notifications_request `{Backend} (token : value) : request :=
  Request GET (API +:+ "/notifications") NoBody
    {[ "Authorization" := "Bearer " +:+ to_string token ]}.

Definition read_request `{Backend} (token notificationId : value) : request :=
  Request POST (API +:+ "/notifications/" +:+ to_string notificationId +:+ "/read")
    (Json (VObj []))
    {[ "Authorization" := "Bearer " +:+ to_string token ]}.

(** A value as a field of a form: a file as it is, anything else as its
    text. *)
Definition form_value (v : value) : value :=
  match v with
  | VFile _ => v
  | _ => VStr (to_string v)
  end.

(** The [POST] of [AddDoor.handleSubmit] for a form whose location has the
    given [latitude] and [longitude]. *)
Definition new_door_request `{Backend} (token : value) (s : AddDoor.state)
    (latitude longitude : value) : request :=
  Request POST (API +:+ "/doors")
    (Form [("title", VStr (AddDoor.title s));
           ("description", VStr (AddDoor.description s));
           ("place_name", VStr (AddDoor.placeName s));
           ("history", VStr (AddDoor.history s));
           ("category", VStr (AddDoor.category s));
           ("image", form_value (AddDoor.image s));
           ("latitude", form_value latitude);
           ("longitude", form_value longitude)])
    (<[ "Content-Type" := "multipart/form-data" ]>
       {[ "Authorization" := "Bearer " +:+ to_string token ]}).



(** A key made of digits only.  [Object.keys] lists the keys that are
    integers first, in ascending order, and such a key is made of digits. *)
Definition digits_only (key : string) : bool :=
  negb (String.eqb key EmptyString)
  && forallb (λ c, (48 <=? N_of_ascii c)%N && (N_of_ascii c <=? 57)%N)
       (list_ascii_of_string key).

(** A list of properties that is an object in the order of [Object.keys]:
    no key comes twice and none is made of digits only, so that the keys
    are listed in the order in which they were set. *)
Definition own_property_order (fields : list (string * value)) : Prop :=
  NoDup (fst <$> fields) ∧ Forall (λ key, digits_only key = false) (fst <$> fields).

(** The category that a filter button of [Home] stands for. *)
Definition button_category (b : filter_button) : option Category :=
  match b with
  | All_Doors => None
  | Category_A => Some A
  | Category_B => Some B
  end.

(** The message of [AddDoor.handleSubmit] for the first thing that is
    missing: the image, then the category, then the location. *)
Definition missing_field (s : AddDoor.state) : option string :=
  if negb (truthy (AddDoor.image s)) then Some "Please select an image"
  else if String.eqb (AddDoor.category s) EmptyString then Some "Please select a category"
  else if negb (truthy (AddDoor.location s))
  then Some "Location is required. Please allow location access."
  else None.

(** The message that [login] and [register] throw for a rejected request. *)
Definition failure_message (response : value) (fallback : string) : string :=
  to_string (or_else (opt_prop (opt_prop response "data") "detail") (VStr fallback)).

(** A backend with an account service, notifications and one door with a
    comment, on top of [demo_server]. *)
Definition demo_notification : value :=
  VObj [("id", VStr "n1"); ("door_id", VStr "door-A"); ("is_read", VBool false);
        ("title", VStr "New comment")].

Definition full_server (trace : list request) (r : request) : outcome :=
  if String.eqb (url r) "http://localhost:8001/api/register" then
    match body r with
    | Json (VObj [_; (_, VStr email); _]) =>
        if String.eqb email "ada@example.org"
        then Rejected (VObj [("status", VNum "400");
                             ("data", VObj [("detail", VStr "Email already registered")])])
        else Fulfilled (VObj [("id", VStr "u2"); ("email", VStr email)])
    | _ => Rejected VUndefined
    end
  else if String.eqb (url r) "http://localhost:8001/api/notifications" then
    Fulfilled (VArr [demo_notification])
  else if String.eqb (url r) "http://localhost:8001/api/notifications/n1/read" then
    Fulfilled (VObj [])
  else if String.eqb (url r) "http://localhost:8001/api/doors/door-A" then
    Fulfilled (demo_door "A")
  else if String.eqb (url r) "http://localhost:8001/api/comments/door-A" then
    Fulfilled (VArr [VObj [("id", VStr "c1"); ("text", VStr "first")]])
  else if String.eqb (url r) "http://localhost:8001/api/doors" then
    match method r with
    | POST => Fulfilled (VObj [("id", VStr "door-new")])
    | GET => demo_server trace r
    end
  else if String.eqb (url r) "http://localhost:8001/api/users/me" then
    if bool_decide (req_headers r !! "Authorization" = Some "Bearer jwt-bob@example.org")
    then Fulfilled (VObj [("id", VStr "u2"); ("name", VStr "Bob")])
    else demo_server trace r
  else demo_server trace r.

Definition full_backend : Backend :=
  {| BACKEND_URL := VStr "http://localhost:8001"; server := full_server |}.

(** A backend that answers every request alike. *)
Definition constant_backend (answer : outcome) : Backend :=
  {| BACKEND_URL := VStr "http://localhost:8001"; server := λ _ _, answer |}.

(** A backend that fulfils the first request it gets with [data] and
    rejects the ones after it. *)
Definition first_only_backend (data : value) : Backend :=
  {| BACKEND_URL := VStr "http://localhost:8001";
     server := λ trace _, match trace with
                          | [] => Fulfilled data
                          | _ => Rejected VUndefined
                          end |}.

(** Pages to run the handlers on. *)
Definition signed_out : AuthProvider.state := AuthProvider.State VNull false VNull.

Definition signed_in : AuthProvider.state :=
  AuthProvider.State demo_user false (VStr "jwt-ada@example.org").

Definition login_form (email password : string) : world (page Login.state) :=
  new_tab (Page signed_out (Login.State email password false EmptyString) []).

Definition register_form (name email password confirmPassword : string)
    : world (page Register.state) :=
  new_tab (Page signed_out
             (Register.State name email password confirmPassword false EmptyString) []).

Definition navbar_page : world (page NavBar.state) :=
  new_tab (Page signed_in (NavBar.State (VArr [demo_notification]) true) []).

Definition door_form (image : value) (category : string) (location : value)
    : world (page AddDoor.state) :=
  new_tab (Page signed_in
             (AddDoor.State "Blue gate" "By the canal" EmptyString EmptyString category
                image VNull location false false EmptyString) []).

Definition door_page : world (page DoorDetail.state) :=
  new_tab (Page signed_in DoorDetail.init []).

(** * Properties *)

(** ** Strings *)

Lemma rev_app_empty (s acc : string) :
  String.rev_app s acc = EmptyString → s = EmptyString ∧ acc = EmptyString.
Proof.
  revert acc. induction s as [|c s IH]; intros acc Hr; simpl in Hr.
  - by split.
  - apply IH in Hr as [_ Hacc]. discriminate Hacc.
Qed.

Lemma trimStart_blank (s : string) :
  trimStart s = EmptyString ↔ Forall (λ c, is_white_space c = true) (list_ascii_of_string s).
Proof.
  induction s as [|c s IH]; simpl.
  - split; [constructor | done].
  - destruct (is_white_space c) eqn:Hc.
    + rewrite IH. split.
      * intros Hs. by constructor.
      * by inversion 1.
    + split; [discriminate |].
      inversion 1 as [|?? Hc' ?]; congruence.
Qed.

Lemma rev_app_chars (P : ascii → Prop) (s acc : string) :
  Forall P (list_ascii_of_string (String.rev_app s acc)) ↔
  Forall P (list_ascii_of_string s) ∧ Forall P (list_ascii_of_string acc).
Proof.
  revert acc. induction s as [|c s IH]; intros acc; simpl.
  - split; [by split | by intros [_ ?]].
  - rewrite IH. simpl. rewrite !Forall_cons. tauto.
Qed.

Lemma trimStart_idem (s : string) : trimStart (trimStart s) = trimStart s.
Proof.
  induction s as [|c s IH]; simpl; [done |].
  destruct (is_white_space c) eqn:Hc; [done |]. simpl. by rewrite Hc.
Qed.

(** The trim of a draft is empty exactly when the draft is made of white
    space only. *)
Lemma trim_blank (s : string) :
  trim s = EmptyString ↔ Forall (λ c, is_white_space c = true) (list_ascii_of_string s).
Proof.
  rewrite <- trimStart_blank. unfold trim, trimEnd, String.rev. split.
  - intros Hr. apply rev_app_empty in Hr as [Hr _].
    apply trimStart_blank, rev_app_chars in Hr as [Hr _].
    apply trimStart_blank in Hr. by rewrite trimStart_idem in Hr.
  - by intros ->.
Qed.

(** ** The session: [AuthProvider] *)

Section session.
Context `{Backend}.
Import AuthProvider.

(** [login], by the answer of the backend to its one request. *)
Lemma login_run (email password : string) (w : world state) :
  login email password w =
  let w1 := World (localStorage w) (sent w ++ [token_request email password])
              (intervals w) (ui w) in
  let fail e :=
    (w1, inl (Error (to_string
       (or_else (opt_prop (opt_prop (exn_response e) "data") "detail")
                (VStr "Login failed"))))) in
  match server (sent w) (token_request email password) with
  | Fulfilled data =>
      match get_prop data "access_token" with
      | inr access_token =>
          (World (<[ "token" := to_string access_token ]> (localStorage w))
             (sent w ++ [token_request email password]) (intervals w)
             (State (currentUser (ui w)) (loading (ui w)) access_token),
           inr true)
      | inl e => fail e
      end
  | Rejected response => fail (AxiosError response)
  end.
Proof.
  unfold login, try_catch, bind, axios_post, axios_request, lift, throw, token_request.
  simpl. destruct (server _ _) as [data|response]; [| done].
  by destruct (get_prop data "access_token").
Qed.
Lemma requests_one {C : Type} (w w' : world C) (r : request) :
  sent w' = sent w ++ [r] → drop (length (sent w)) (sent w') = [r].
Proof. intros ->. by rewrite drop_app_length. Qed.

Lemma requests_none {C : Type} (w w' : world C) :
  sent w' = sent w → drop (length (sent w)) (sent w') = [].
Proof. intros ->. by rewrite drop_all. Qed.

(** C1: [login] sends the form-encoded POST to [/api/token].  When the
    backend fulfils it with an object holding an [access_token], the token is
    stored under ['token'] in [localStorage] (as its text, which for a string
    is the string itself), it becomes the [token] state, and [true] is
    returned.  When the backend rejects the POST, [login] throws an [Error]
    and neither [localStorage] nor the [token] state changes. *)
Theorem login_stores_token_or_throws (email password : string) (w : world state) :
  requests (login email password) w = [token_request email password] ∧
  (∀ fields access_token,
     server (sent w) (token_request email password) = Fulfilled (VObj fields) →
     lookup_field "access_token" fields = Some access_token →
     localStorage (exec (login email password) w)
       = <[ "token" := to_string access_token ]> (localStorage w) ∧
     token (ui (exec (login email password) w)) = access_token ∧
     result (login email password) w = inr true) ∧
  (∀ response,
     server (sent w) (token_request email password) = Rejected response →
     (∃ message, result (login email password) w = inl (Error message)) ∧
     localStorage (exec (login email password) w) = localStorage w ∧
     token (ui (exec (login email password) w)) = token (ui w)).
Proof.
  unfold requests, exec, result. rewrite login_run. cbv zeta. split; [| split].
  - apply requests_one.
    destruct (server _ _) as [data|response]; [| done].
    by destruct (get_prop data "access_token").
  - intros fields access_token -> Hfield. simpl. by rewrite Hfield.
  - intros response ->. simpl. eauto.
Qed.

(** [fetchCurrentUser] when the backend rejects [GET /api/users/me]: the
    handler of the [catch] is [logout], then [finally] ends the loading. *)
Lemma fetchCurrentUser_rejected (t : value) (w : world state) (response : value) :
  server (sent w) (users_me_request t) = Rejected response →
  exec (fetchCurrentUser t) w =
  World (delete "token" (localStorage w)) (sent w ++ [users_me_request t])
    (intervals w) (State VNull false VNull).
Proof.
  intros Hr. unfold exec, fetchCurrentUser, try_finally, try_catch, bind,
    axios_get, axios_request.
  change (Request GET (API +:+ "/users/me") NoBody _) with (users_me_request t).
  by rewrite Hr.
Qed.

Lemma fetchCurrentUser_fulfilled (t : value) (w : world state) (data : value) :
  server (sent w) (users_me_request t) = Fulfilled data →
  exec (fetchCurrentUser t) w =
  World (localStorage w) (sent w ++ [users_me_request t])
    (intervals w) (State data false (token (ui w))).
Proof.
  intros Hr. unfold exec, fetchCurrentUser, try_finally, try_catch, bind,
    axios_get, axios_request.
  change (Request GET (API +:+ "/users/me") NoBody _) with (users_me_request t).
  by rewrite Hr.
Qed.

(** C2: the page is loaded with a token [s] in [localStorage] and the
    backend rejects the [GET /api/users/me] sent with it.  Then the client
    has logged out: ['token'] is gone from [localStorage], the [token] state
    is [null] and [currentUser] is [null].  The fetch is made for every
    stored token but the empty string, which is falsy. *)
Theorem restore_failure_forces_logout
    (store : gmap string string) (trace : list request) (s : string) (response : value) :
  store !! "token" = Some s →
  s ≠ EmptyString →
  server trace (users_me_request (VStr s)) = Rejected response →
  sent (restore_session store trace) = trace ++ [users_me_request (VStr s)] ∧
  localStorage (restore_session store trace) !! "token" = None ∧
  token (ui (restore_session store trace)) = VNull ∧
  currentUser (ui (restore_session store trace)) = VNull.
Proof.
  intros Hs Hne Hr. unfold restore_session, effect, init, localStorage_getItem.
  rewrite Hs. simpl.
  destruct (String.eqb_spec s EmptyString) as [->|_]; [done |]. simpl.
  rewrite (fetchCurrentUser_rejected _ _ response) by done. simpl.
  by rewrite lookup_delete_eq.
Qed.

(** C3: after [logout], [localStorage] has no ['token'], the [token] state
    and [currentUser] are [null], and [isAuthenticated] is false. *)
Theorem logout_clears_session (w : world state) :
  localStorage (exec logout w) !! "token" = None ∧
  token (ui (exec logout w)) = VNull ∧
  currentUser (ui (exec logout w)) = VNull ∧
  isAuthenticated (ui (exec logout w)) = false.
Proof.
  unfold exec, logout, bind; simpl.
  by rewrite lookup_delete_eq.
Qed.

(** C9: [logout] twice leaves the browser and the session as [logout] once
    does, and that state is the cleared one: [localStorage] has no
    ['token'], the [token] state is [null] and [currentUser] is [null]. *)
Theorem logout_idempotent (w : world state) :
  exec logout (exec logout w) = exec logout w ∧
  localStorage (exec logout (exec logout w)) !! "token" = None ∧
  token (ui (exec logout (exec logout w))) = VNull ∧
  currentUser (ui (exec logout (exec logout w))) = VNull.
Proof.
  unfold exec, logout, bind; simpl.
  rewrite delete_delete_eq. by rewrite lookup_delete_eq.
Qed.
End session.

(** ** The data-access layer: [api] *)

Section data_access.
Context `{Backend}.

Lemma get_prop_defined (v : value) (key : string) :
  nullish v = false → ∃ x, get_prop v key = inr x.
Proof. destruct v; simpl; try done; eauto. Qed.

Lemma get_prop_nullish (v : value) (key : string) :
  nullish v = true → ∃ e, get_prop v key = inl e.
Proof. destruct v; simpl; try done; eauto. Qed.

(** The [Authorization] header asked for by [getHeaders], also under the
    [Content-Type] that [createDoor] adds. *)
Lemma getHeaders_authorization (token : value) :
  headers (api.getHeaders token) !! "Authorization" = Some ("Bearer " +:+ to_string token) ∧
  <[ "Content-Type" := "multipart/form-data" ]> (headers (api.getHeaders token))
    !! "Authorization" = Some ("Bearer " +:+ to_string token).
Proof.
  unfold api.getHeaders; simpl. split.
  - apply lookup_singleton_eq.
  - rewrite lookup_insert_ne by done. apply lookup_singleton_eq.
Qed.

(** What one axios call leaves in the trace. *)
Lemma axios_request_sent {C : Type} (r : request) (w : world C) :
  sent (axios_request r w).1 = sent w ++ [r].
Proof. unfold axios_request. by destruct (server _ _). Qed.

(** An operation that is one axios call inside [try]/[catch] sends that
    request, whatever the answer. *)
Lemma rethrow_requests {C : Type} (r : request) (k : value → M C value) (w : world C) :
  (∀ x w', sent (k x w').1 = sent w') →
  requests (try_catch (bind (axios_request r) k) (λ error, throw error)) w = [r].
Proof.
  intros Hk. unfold requests, exec. apply requests_one.
  pose proof (axios_request_sent r w) as Hs.
  unfold try_catch, bind, throw.
  destruct (axios_request r w) as [w1 [e|x]]; simpl in *; [done |].
  specialize (Hk x w1). destruct (k x w1) as [w2 [e|y]]; simpl in *; congruence.
Qed.

(** C6: each of the seven operations of [api] sends at most one request,
    and that request asks for the header [Authorization] with the value
    ["Bearer "] followed by the text of the token it was given (the token
    itself when it is a string).  Each of them does send one, except
    [createDoor] on a door without a location, which throws before its axios
    call. *)
Theorem api_requests_carry_bearer {C : Type} (token : value) (c : api_call) (w : world C) :
  Forall (λ r, req_headers r !! "Authorization" = Some ("Bearer " +:+ to_string token))
    (requests (api_run token c) w) ∧
  length (requests (api_run token c) w) = (if reaches_axios c then 1 else 0)%nat.
Proof.
  destruct (getHeaders_authorization token) as [Hauth Hauth'].
  destruct c; simpl;
    try (unfold api.getDoors, api.getDoor, api.getComments, api.createComment,
           api.getNotifications, api.markNotificationAsRead, axios_get, axios_post;
         rewrite rethrow_requests by done;
         split; [by repeat constructor | done]).
  unfold api.createDoor, lift, requests, exec.
  set (location := default VUndefined (lookup_field "location" doorData)).
  destruct (nullish location) eqn:Hloc; simpl.
  - destruct (get_prop_nullish location "latitude" Hloc) as [e He].
    unfold try_catch, bind, throw. rewrite He. simpl.
    rewrite drop_all. by split.
  - destruct (get_prop_defined location "latitude" Hloc) as [lat Hlat].
    destruct (get_prop_defined location "longitude" Hloc) as [lon Hlon].
    unfold try_catch, bind, throw, axios_post, axios_request, ret.
    rewrite Hlat, Hlon. simpl.
    destruct (server _ _); simpl; rewrite drop_app_length; by repeat constructor.
Qed.
End data_access.

(** ** [Home]: the list follows the filter *)

Section door_list.
Context `{Backend}.
Import Home.

(** The URL that [api.getDoors] asks for, for any argument: the query is
    there exactly when the category is truthy. *)
Lemma getDoors_url {C : Type} (token category : value) (w : world C) :
  url <$> requests (api.getDoors token category) w =
  [ if truthy category
    then API +:+ "/doors?category=" +:+ to_string category
    else API +:+ "/doors" ].
Proof.
  unfold api.getDoors, axios_get. rewrite rethrow_requests by done. simpl.
  by destruct category.
Qed.

(** The filter buttons keep [activeCategory] among [null], ['A'] and
    ['B']. *)
Lemma activeCategory_range (clicks : list filter_button) (w : world state) :
  activeCategory (ui w) = VNull →
  ∃ c, activeCategory (ui (foldl (λ w b, exec (onClick b) w) w clicks)) = category_value c.
Proof.
  intros Hw.
  assert (Hinv : ∃ c, activeCategory (ui w) = category_value c) by (by exists None).
  clear Hw. revert w Hinv.
  induction clicks as [|b clicks IH]; intros w Hinv; simpl; [done |].
  apply IH. destruct b; [by exists None | by exists (Some A) | by exists (Some B)].
Qed.

Lemma fetchDoors_run (token : value) (c : option Category) (w : world state) :
  fetchDoors token (category_value c) w =
  let trace := sent w ++ [doors_request token c] in
  match server (sent w) (doors_request token c) with
  | Fulfilled data =>
      (World (localStorage w) trace (intervals w)
         (State data false (activeCategory (ui w))), inr tt)
  | Rejected response =>
      (World (localStorage w) trace (intervals w)
         (State (doors (ui w)) false (activeCategory (ui w))), inr tt)
  end.
Proof.
  unfold fetchDoors, api.getDoors, axios_get, axios_request, try_finally,
    try_catch, bind, throw, ret, doors_request.
  destruct c as [[|]|]; simpl; by destruct (server _ _).
Qed.

(** C4: the fetch of the door list of [Home] asks for
    [/api/doors?category=C] when the active category is the category [C],
    and for [/api/doors], with no query, when it is [null]; when the backend
    fulfils the request, the list shown is the data of that answer. *)
Theorem fetchDoors_reflects_category
    (token : value) (c : option Category) (w : world state) (data : value) :
  server (sent w) (doors_request token c) = Fulfilled data →
  requests (fetchDoors token (category_value c)) w = [doors_request token c] ∧
  url (doors_request token c)
    = API +:+ match c with
              | Some c => "/doors?category=" +:+ Category_name c
              | None => "/doors"
              end ∧
  doors (ui (exec (fetchDoors token (category_value c)) w)) = data.
Proof.
  intros Hr. unfold requests, exec. rewrite fetchDoors_run, Hr. simpl.
  rewrite drop_app_length. by destruct c.
Qed.
End door_list.

(** ** [DoorDetail]: the comment form *)

Section comments.
Context `{Backend}.
Import DoorDetail.

Lemma truthy_trim (draft : string) :
  truthy (VStr (trim draft)) = false ↔ trim draft = EmptyString.
Proof.
  simpl. destruct (String.eqb_spec (trim draft) EmptyString); simpl; split; congruence.
Qed.

(** The handler on a draft that is not blank. *)
Lemma onSubmit_run (token id : value) (w : world state) :
  trim (newComment (ui w)) ≠ EmptyString →
  onSubmit token id w =
  let r := comment_request token id (newComment (ui w)) in
  let s := ui w in
  match server (sent w) r with
  | Fulfilled createdComment =>
      match spread (comments s) with
      | inr items =>
          (World (localStorage w) (sent w ++ [r]) (intervals w)
             (State (door s) (VArr (items ++ [createdComment])) EmptyString
                (loading s) false), inr tt)
      | inl _ =>
          (World (localStorage w) (sent w ++ [r]) (intervals w)
             (State (door s) (comments s) (newComment s) (loading s) false), inr tt)
      end
  | Rejected _ =>
      (World (localStorage w) (sent w ++ [r]) (intervals w)
         (State (door s) (comments s) (newComment s) (loading s) false), inr tt)
  end.
Proof.
  intros Hdraft. unfold onSubmit, handleSubmitComment.
  destruct (truthy (VStr (trim (newComment (ui w))))) eqn:Ht; simpl.
  2: { by apply truthy_trim in Ht. }
  unfold api.createComment, axios_post, axios_request, try_finally, try_catch,
    bind, lift, throw, ret, comment_request.
  simpl. destruct (server _ _); [| done].
  by destruct (spread (comments (ui w))).
Qed.

Lemma onSubmit_blank (token id : value) (w : world state) :
  trim (newComment (ui w)) = EmptyString → onSubmit token id w = (w, inr tt).
Proof.
  intros Hdraft. unfold onSubmit, handleSubmitComment.
  apply truthy_trim in Hdraft. by rewrite Hdraft.
Qed.

(** C5: the form is submitted while the comments shown are the list
    [items]; a request is sent and the backend fulfils it with the created
    comment.  Then the comments to show are [items] followed by the created
    comment, so each comment that was shown is still at its index. *)
Theorem comment_submission_appends
    (token id : value) (w : world state) (items : list value) (r : request)
    (createdComment : value) :
  comments (ui w) = VArr items →
  requests (onSubmit token id) w = [r] →
  server (sent w) r = Fulfilled createdComment →
  comments (ui (exec (onSubmit token id) w)) = VArr (items ++ [createdComment]) ∧
  (∀ i c, items !! i = Some c → (items ++ [createdComment]) !! i = Some c).
Proof.
  intros Hitems Hsent Hr. split.
  - revert Hsent. unfold requests, exec.
    destruct (decide (trim (newComment (ui w)) = EmptyString)) as [Hblank|Hdraft].
    { rewrite onSubmit_blank by done. simpl. by rewrite drop_all. }
    rewrite onSubmit_run by done. cbv zeta.
    destruct (server _ (comment_request _ _ _)) as [created|response] eqn:Hc;
      rewrite Hitems; simpl; rewrite drop_app_length; intros [= <-];
      rewrite Hc in Hr; by simplify_eq.
  - intros i c Hi. by apply lookup_app_l_Some.
Qed.

(** C10: on a draft whose trim is empty the handler returns at once: no
    request is sent, and the comments and the draft stay as they are. *)
Theorem blank_comment_is_ignored (token id : value) (w : world state) :
  trim (newComment (ui w)) = EmptyString →
  requests (onSubmit token id) w = [] ∧
  comments (ui (exec (onSubmit token id) w)) = comments (ui w) ∧
  newComment (ui (exec (onSubmit token id) w)) = newComment (ui w).
Proof.
  intros Hblank. unfold requests, exec. rewrite onSubmit_blank by done. simpl.
  by rewrite drop_all.
Qed.
End comments.

(** ** The router *)

(** C7: at [/map], [/add-door] and [/doors/:id] the router renders
    [<Navigate to="/login" />] while [isAuthenticated] is false and the view
    of the route, its children, while it is true; and while it is false no
    location at all gets a protected view rendered. *)
Theorem protected_routes_need_session (isAuthenticated : bool) (id : string) :
  Routes isAuthenticated ["map"]
    = Some (if isAuthenticated then Show MapView_view [] else Navigate "/login") ∧
  Routes isAuthenticated ["add-door"]
    = Some (if isAuthenticated then Show AddDoor_view [] else Navigate "/login") ∧
  Routes isAuthenticated ["doors"; id]
    = Some (if isAuthenticated then Show DoorDetail_view [("id", id)]
            else Navigate "/login") ∧
  (∀ location v params,
     Routes false location = Some (Show v params) → protected_view v = false).
Proof.
  repeat split; try by destruct isAuthenticated.
  intros location v params. unfold Routes, App_routes, match_route, match_pattern,
    match_segments, render_element, ProtectedRoute, path, route_element.
  intros Hshow. repeat case_match; by simplify_eq.
Qed.

(** Under [AuthProvider], the router is rendered once the loading is over,
    with [!!currentUser] for [isAuthenticated]. *)
Lemma App_loaded (auth : AuthProvider.state) (location : list string) :
  AuthProvider.loading auth = false →
  App auth location = Routes (truthy (AuthProvider.currentUser auth)) location.
Proof.
  intros Hl. unfold App, AuthProvider.isAuthenticated. rewrite Hl. simpl.
  by rewrite negb_involutive.
Qed.

(** ** [NavBar]: the polling timer *)

Section polling.
Context `{Backend}.
Import NavBar.

(** [fetchNotifications] catches what the fetch throws, and touches no
    timer. *)
Lemma fetchNotifications_quiet (token : value) (w : world state) :
  ∃ w1, fetchNotifications token w = (w1, inr tt) ∧ intervals w1 = intervals w.
Proof.
  unfold fetchNotifications, api.getNotifications, axios_get, axios_request,
    setNotifications, set_ui, try_catch, bind, throw, ret.
  destruct (server _ _); eauto.
Qed.

(** C8, as the program has it: with a token, the effect of [NavBar] sets one
    timer, for [fetchNotifications] every 30000 milliseconds, whatever the
    notifications held and whatever the backend answers; two runs of the
    callback in a row are 30000 milliseconds apart. *)
Theorem polling_interval_is_thirty_seconds (token : value) (w : world state) :
  truthy token = true →
  intervals (exec (effect token) w) = intervals w ++ [Interval fetchNotifications_cb 30000] ∧
  (∀ start n,
     fires_at start (Interval fetchNotifications_cb 30000) (S n)
     - fires_at start (Interval fetchNotifications_cb 30000) n = 30000).
Proof.
  intros Ht. split.
  - destruct (fetchNotifications_quiet token w) as (w1 & Hrun & Hk).
    unfold exec, effect. rewrite Ht. unfold bind, setInterval, ret.
    rewrite Hrun. simpl. by rewrite Hk.
  - intros start n. unfold fires_at. simpl delay. lia.
Qed.
End polling.

(** * The properties at work, against [demo_backend] *)

(** A login with the right password, then one with a wrong one. *)
Lemma login_stores_token_or_throws_witness :
  (localStorage (exec (@AuthProvider.login demo_backend "ada@example.org" "hunter2")
                   (new_tab (AuthProvider.init ∅)))
     = <[ "token" := "jwt-ada@example.org" ]> ∅ ∧
   AuthProvider.token (ui (exec (@AuthProvider.login demo_backend "ada@example.org" "hunter2")
                             (new_tab (AuthProvider.init ∅))))
     = VStr "jwt-ada@example.org" ∧
   result (@AuthProvider.login demo_backend "ada@example.org" "hunter2")
     (new_tab (AuthProvider.init ∅)) = inr true) ∧
  ((∃ message,
      result (@AuthProvider.login demo_backend "ada@example.org" "letmein")
        (new_tab (AuthProvider.init ∅)) = inl (Error message)) ∧
   localStorage (exec (@AuthProvider.login demo_backend "ada@example.org" "letmein")
                   (new_tab (AuthProvider.init ∅))) = ∅ ∧
   AuthProvider.token (ui (exec (@AuthProvider.login demo_backend "ada@example.org" "letmein")
                             (new_tab (AuthProvider.init ∅)))) = VNull).
Proof.
  split.
  - exact (proj1 (proj2 (@login_stores_token_or_throws demo_backend
             "ada@example.org" "hunter2" (new_tab (AuthProvider.init ∅))))
             [("access_token", VStr "jwt-ada@example.org"); ("token_type", VStr "bearer")]
             (VStr "jwt-ada@example.org") eq_refl eq_refl).
  - exact (proj2 (proj2 (@login_stores_token_or_throws demo_backend
             "ada@example.org" "letmein" (new_tab (AuthProvider.init ∅))))
             demo_unauthorized eq_refl).
Defined.

(** A page loaded with a token the backend does not know. *)
Lemma restore_failure_forces_logout_witness :
  sent (@AuthProvider.restore_session demo_backend {[ "token" := "stale" ]} [])
    = [] ++ [@users_me_request demo_backend (VStr "stale")] ∧
  localStorage (@AuthProvider.restore_session demo_backend {[ "token" := "stale" ]} [])
    !! "token" = None ∧
  AuthProvider.token
    (ui (@AuthProvider.restore_session demo_backend {[ "token" := "stale" ]} [])) = VNull ∧
  AuthProvider.currentUser
    (ui (@AuthProvider.restore_session demo_backend {[ "token" := "stale" ]} [])) = VNull.
Proof.
  apply (@restore_failure_forces_logout demo_backend {[ "token" := "stale" ]} []
           "stale" demo_unauthorized).
  - reflexivity.
  - discriminate.
  - reflexivity.
Defined.

(** The list of [Home] under the filter [A]. *)
Lemma fetchDoors_reflects_category_witness :
  requests (@Home.fetchDoors demo_backend (VStr "jwt-ada@example.org")
              (Home.category_value (Some A))) (new_tab Home.init)
    = [@doors_request demo_backend (VStr "jwt-ada@example.org") (Some A)] ∧
  url (@doors_request demo_backend (VStr "jwt-ada@example.org") (Some A))
    = @API demo_backend +:+ "/doors?category=" +:+ Category_name A ∧
  Home.doors (ui (exec (@Home.fetchDoors demo_backend (VStr "jwt-ada@example.org")
                          (Home.category_value (Some A))) (new_tab Home.init)))
    = VArr [demo_door "A"].
Proof.
  apply (@fetchDoors_reflects_category demo_backend (VStr "jwt-ada@example.org")
           (Some A) (new_tab Home.init) (VArr [demo_door "A"])).
  reflexivity.
Defined.

(** A comment posted under one that is already shown. *)
Lemma comment_submission_appends_witness :
  DoorDetail.comments
    (ui (exec (@DoorDetail.onSubmit demo_backend (VStr "jwt-ada@example.org") (VStr "7"))
           (new_tab (DoorDetail.State VNull (VArr [VStr "first"]) "second" false false))))
    = VArr ([VStr "first"] ++
            [VObj [("id", VStr "c9"); ("text", VStr "second"); ("door_id", VStr "7")]]) ∧
  (∀ i c, [VStr "first"] !! i = Some c →
          ([VStr "first"] ++
           [VObj [("id", VStr "c9"); ("text", VStr "second"); ("door_id", VStr "7")]])
            !! i = Some c).
Proof.
  apply (@comment_submission_appends demo_backend (VStr "jwt-ada@example.org") (VStr "7")
           (new_tab (DoorDetail.State VNull (VArr [VStr "first"]) "second" false false))
           [VStr "first"]
           (@comment_request demo_backend (VStr "jwt-ada@example.org") (VStr "7") "second")
           (VObj [("id", VStr "c9"); ("text", VStr "second"); ("door_id", VStr "7")])).
  - reflexivity.
  - reflexivity.
  - reflexivity.
Defined.

(** A draft of a space, a tab and a line feed. *)
Lemma blank_comment_is_ignored_witness :
  requests (@DoorDetail.onSubmit demo_backend (VStr "jwt-ada@example.org") (VStr "7"))
    (new_tab (DoorDetail.State VNull (VArr [VStr "first"])
                (String " " (String "009" (String "010" EmptyString))) false false))
    = [] ∧
  DoorDetail.comments
    (ui (exec (@DoorDetail.onSubmit demo_backend (VStr "jwt-ada@example.org") (VStr "7"))
           (new_tab (DoorDetail.State VNull (VArr [VStr "first"])
                       (String " " (String "009" (String "010" EmptyString))) false false))))
    = VArr [VStr "first"] ∧
  DoorDetail.newComment
    (ui (exec (@DoorDetail.onSubmit demo_backend (VStr "jwt-ada@example.org") (VStr "7"))
           (new_tab (DoorDetail.State VNull (VArr [VStr "first"])
                       (String " " (String "009" (String "010" EmptyString))) false false))))
    = String " " (String "009" (String "010" EmptyString)).
Proof.
  apply (@blank_comment_is_ignored demo_backend (VStr "jwt-ada@example.org") (VStr "7")
           (new_tab (DoorDetail.State VNull (VArr [VStr "first"])
                       (String " " (String "009" (String "010" EmptyString))) false false))).
  reflexivity.
Defined.

(** Without a session, [/login] is shown and is not a protected view. *)
Lemma protected_routes_need_session_witness :
  Routes false ["map"] = Some (Navigate "/login") ∧
  Routes true ["doors"; "7"] = Some (Show DoorDetail_view [("id", "7")]) ∧
  protected_view Login_view = false.
Proof.
  split; [| split].
  - apply (proj1 (protected_routes_need_session false "7")).
  - apply (proj1 (proj2 (proj2 (protected_routes_need_session true "7")))).
  - apply (proj2 (proj2 (proj2 (protected_routes_need_session false "7")))
             ["login"] Login_view []).
    reflexivity.
Defined.

(** The timer of a signed-in [NavBar]. *)
Lemma polling_interval_is_thirty_seconds_witness :
  intervals (exec (@NavBar.effect demo_backend (VStr "jwt-ada@example.org"))
               (new_tab NavBar.init))
    = [] ++ [Interval fetchNotifications_cb 30000] ∧
  (∀ start n,
     fires_at start (Interval fetchNotifications_cb 30000) (S n)
     - fires_at start (Interval fetchNotifications_cb 30000) n = 30000).
Proof.
  apply (@polling_interval_is_thirty_seconds demo_backend (VStr "jwt-ada@example.org")
           (new_tab NavBar.init)).
  reflexivity.
Defined.

(** C8 as the specification words it fails: the timer that the effect of
    [NavBar] sets has a delay of 30000 milliseconds, which is not fifteen
    milliseconds, fifteen seconds or fifteen minutes. *)
Lemma polling_interval_is_not_fifteen :
  delay <$> intervals (exec (@NavBar.effect demo_backend (VStr "jwt-ada@example.org"))
                         (new_tab NavBar.init)) = [30000] ∧
  30000 ≠ 15 ∧ 30000 ≠ 15 * 1000 ∧ 30000 ≠ 15 * 60000.
Proof. repeat split; done. Qed.

(** ** Runs of the client *)

(** A page loaded with a token the backend knows: the user is fetched and
    the token stays. *)
Example restore_session_known_token :
  ui (@AuthProvider.restore_session demo_backend {[ "token" := "jwt-ada@example.org" ]} [])
  = AuthProvider.State demo_user false (VStr "jwt-ada@example.org").
Proof. reflexivity. Qed.

(** A page loaded with nothing stored: no request, the loading ends. *)
Example restore_session_no_token :
  @AuthProvider.restore_session demo_backend ∅ []
  = World ∅ [] [] (AuthProvider.State VNull false VNull).
Proof. reflexivity. Qed.

(** The message of a failed login is the [detail] of the answer. *)
Example login_wrong_password :
  result (@AuthProvider.login demo_backend "ada@example.org" "letmein")
    (new_tab (AuthProvider.init ∅))
  = inl (Error "Incorrect email or password").
Proof. reflexivity. Qed.

(** [MapView] calls [api.getDoors(token)]: the category defaults to [null].
    An empty string is falsy and gets no query either. *)
Example getDoors_without_category :
  url <$> requests (@api.getDoors demo_backend unit (VStr "t") VUndefined) (new_tab ())
    = ["http://localhost:8001/api/doors"] ∧
  url <$> requests (@api.getDoors demo_backend unit (VStr "t") (VStr EmptyString)) (new_tab ())
    = ["http://localhost:8001/api/doors"] ∧
  url <$> requests (@api.getDoors demo_backend unit (VStr "t") (VStr "B")) (new_tab ())
    = ["http://localhost:8001/api/doors?category=B"].
Proof. repeat split; reflexivity. Qed.

(** [createDoor] sends the properties but [location] in their order, then
    the two coordinates; the image stays a file. *)
Example createDoor_form :
  body <$> requests
    (@api.createDoor demo_backend unit (VStr "t")
       [("title", VStr "Blue gate"); ("category", VStr "A");
        ("location", VObj [("latitude", VNum "52.5"); ("longitude", VNum "13.4")]);
        ("image", VFile "gate.jpg")])
    (new_tab ())
  = [Form [("title", VStr "Blue gate"); ("category", VStr "A");
           ("image", VFile "gate.jpg");
           ("latitude", VStr "52.5"); ("longitude", VStr "13.4")]].
Proof. reflexivity. Qed.

Example createDoor_without_location :
  requests (@api.createDoor demo_backend unit (VStr "t") [("title", VStr "Blue gate")])
    (new_tab ()) = [] ∧
  result (@api.createDoor demo_backend unit (VStr "t") [("title", VStr "Blue gate")])
    (new_tab ())
  = inl (TypeError "Cannot read properties of undefined (reading 'latitude')").
Proof. split; reflexivity. Qed.

(** A rejected comment leaves the list and the draft, and ends the
    submitting. *)
Example comment_rejected :
  ui (exec (@DoorDetail.onSubmit
              {| BACKEND_URL := VStr "http://localhost:8001";
                 server := λ _ _, Rejected VUndefined |}
              (VStr "t") (VStr "7"))
        (new_tab (DoorDetail.State VNull (VArr [VStr "first"]) "second" false false)))
  = DoorDetail.State VNull (VArr [VStr "first"]) "second" false false.
Proof. reflexivity. Qed.

Example trim_inner_spaces_stay :
  trim "  a door  " = "a door" ∧ trim "   " = EmptyString.
Proof. split; reflexivity. Qed.

Example routes_of_App :
  Routes false [] = Some (Show Home_view []) ∧
  Routes false ["login"] = Some (Show Login_view []) ∧
  Routes true ["doors"] = Some (Show NotFound_view []) ∧
  App (AuthProvider.State demo_user true VNull) ["map"] = None ∧
  App (AuthProvider.State demo_user false VNull) ["map"] = Some (Show MapView_view []).
Proof. repeat split; reflexivity. Qed.

(** * More of the client *)

(** The operations of the monad and of the browser, to run a handler
    symbolically. *)
Create HintDb js discriminated.
#[local] Hint Unfold exec result requests bind ret throw lift try_catch try_finally
  set_ui with_auth with_own navigate localStorage_setItem localStorage_removeItem
  setInterval : js.
#[local] Hint Unfold axios_get axios_post axios_request : js.
#[local] Hint Unfold api.getHeaders api.getDoors api.getDoor api.createDoor api.getComments
  api.createComment api.getNotifications api.markNotificationAsRead : js.

Ltac run_js := repeat autounfold with js; simpl.

(** ** The session, beyond one operation *)

Section session_flows.
Context `{Backend}.
Import AuthProvider.

(** X1: [register] sends one POST to [/api/register] with the three fields as
    JSON and no header of its own.  Whatever the answer, it leaves
    [localStorage] and the session as they are: registering does not sign
    in.  It returns [true] when the request is fulfilled and throws an
    [Error] with the [detail] of the answer, or [Registration failed],
    when it is rejected. *)
Theorem register_leaves_session (name email password : string) (w : world state) :
  requests (register name email password) w = [register_request name email password] ∧
  localStorage (exec (register name email password) w) = localStorage w ∧
  ui (exec (register name email password) w) = ui w ∧
  result (register name email password) w =
    match server (sent w) (register_request name email password) with
    | Fulfilled _ => inr true
    | Rejected response => inl (Error (failure_message response "Registration failed"))
    end.
Proof.
  unfold register, register_request, failure_message. run_js.
  destruct (server _ _); simpl; rewrite drop_app_length; done.
Qed.

(** What [login] throws is always an [Error] built by the program. *)
Lemma login_throws_Error (email password : string) (w : world state) (e : exn) :
  result (login email password) w = inl e → ∃ message, e = Error message.
Proof.
  unfold result. rewrite login_run. cbv zeta.
  destruct (server _ _) as [data|response]; simpl.
  - destruct (get_prop data "access_token"); simpl; intros [= <-]; eauto.
  - intros [= <-]; eauto.
Qed.

(** X2: [login] on a fulfilled POST whose data is not what it expects.  When
    the data is [null] or [undefined] the destructuring throws inside the
    [try]: [login] throws [Login failed] and stores nothing.  When the data
    has no [access_token], [login] still returns [true]: it stores the text
    [undefined] under ['token'] and the [token] state becomes
    [undefined]. *)
Theorem login_on_malformed_answer (email password : string) (w : world state) (data : value) :
  server (sent w) (token_request email password) = Fulfilled data →
  (nullish data = true →
     result (login email password) w = inl (Error "Login failed") ∧
     localStorage (exec (login email password) w) = localStorage w ∧
     ui (exec (login email password) w) = ui w) ∧
  (get_prop data "access_token" = inr VUndefined →
     result (login email password) w = inr true ∧
     localStorage (exec (login email password) w) !! "token" = Some "undefined" ∧
     token (ui (exec (login email password) w)) = VUndefined).
Proof.
  intros Hr. unfold exec, result. rewrite login_run, Hr. cbv zeta. split.
  - intros Hn. by destruct data.
  - intros ->. simpl. by rewrite lookup_insert_eq.
Qed.

(** The browser after a fulfilled [login]. *)
Lemma login_fulfilled (email password : string) (w : world state)
    (fields : list (string * value)) (access_token : value) :
  server (sent w) (token_request email password) = Fulfilled (VObj fields) →
  lookup_field "access_token" fields = Some access_token →
  exec (login email password) w =
  World (<[ "token" := to_string access_token ]> (localStorage w))
    (sent w ++ [token_request email password]) (intervals w)
    (State (currentUser (ui w)) (loading (ui w)) access_token).
Proof.
  intros Hr Hf. unfold exec. rewrite login_run, Hr. cbv zeta. simpl. by rewrite Hf.
Qed.

(** X3: After a successful [login] that changes the token, the effect of
    [AuthProvider], whose dependency is the token, runs with the new one:
    it asks [/api/users/me] with that token as bearer, and when the backend
    fulfils this too the session is there: [currentUser] is the data of the
    answer, the token is kept in the state and in [localStorage], and the
    loading is over.  (A login answered with the token already held changes
    no dependency, and the effect does not run.) *)
Theorem login_then_effect_opens_session
    (email password : string) (w : world state)
    (fields : list (string * value)) (access_token user : value) :
  server (sent w) (token_request email password) = Fulfilled (VObj fields) →
  lookup_field "access_token" fields = Some access_token →
  token (ui w) ≠ access_token →
  truthy access_token = true →
  server (sent w ++ [token_request email password]) (users_me_request access_token)
    = Fulfilled user →
  exec (effect (token (ui (exec (login email password) w)))) (exec (login email password) w) =
  World (<[ "token" := to_string access_token ]> (localStorage w))
    (sent w ++ [token_request email password] ++ [users_me_request access_token])
    (intervals w) (State user false access_token).
Proof.
  intros Hr Hf _ Ht Hu. rewrite (login_fulfilled _ _ _ fields access_token) by done.
  simpl. unfold effect. rewrite Ht.
  rewrite (fetchCurrentUser_fulfilled _ _ user) by done. simpl.
  by rewrite <- app_assoc.
Qed.

(** X4: When instead the backend rejects [/api/users/me] for the new token
    that [login] has just stored, the [catch] of [fetchCurrentUser] logs
    out: the token is removed from [localStorage] again and the session is
    empty.  As in X3 the login changes the token, so that the effect
    runs. *)
Theorem login_then_effect_rejected
    (email password : string) (w : world state)
    (fields : list (string * value)) (access_token response : value) :
  server (sent w) (token_request email password) = Fulfilled (VObj fields) →
  lookup_field "access_token" fields = Some access_token →
  token (ui w) ≠ access_token →
  truthy access_token = true →
  server (sent w ++ [token_request email password]) (users_me_request access_token)
    = Rejected response →
  exec (effect (token (ui (exec (login email password) w)))) (exec (login email password) w) =
  World (delete "token" (localStorage w))
    (sent w ++ [token_request email password] ++ [users_me_request access_token])
    (intervals w) (State VNull false VNull).
Proof.
  intros Hr Hf _ Ht Hu. rewrite (login_fulfilled _ _ _ fields access_token) by done.
  simpl. unfold effect. rewrite Ht.
  rewrite (fetchCurrentUser_rejected _ _ response) by done. simpl.
  by rewrite <- app_assoc, delete_insert_eq.
Qed.

(** X5: The token that [login] stores is the one a reload starts with:
    [useState(localStorage.getItem('token'))] reads back the text stored,
    which is the token itself when the backend sent a string. *)
Theorem login_survives_reload
    (email password : string) (w : world state)
    (fields : list (string * value)) (access_token : value) :
  server (sent w) (token_request email password) = Fulfilled (VObj fields) →
  lookup_field "access_token" fields = Some access_token →
  token (init (localStorage (exec (login email password) w)))
    = VStr (to_string access_token) ∧
  (∀ s, access_token = VStr s →
        token (init (localStorage (exec (login email password) w)))
          = token (ui (exec (login email password) w))).
Proof.
  intros Hr Hf. rewrite (login_fulfilled _ _ _ fields access_token) by done.
  unfold init, localStorage_getItem. simpl. rewrite lookup_insert_eq.
  split; [done | by intros s ->].
Qed.

(** A page loaded with no token stored, or with the empty string, makes no
    request: the loading just ends. *)
Lemma restore_without_token (store : gmap string string) (trace : list request) :
  store !! "token" = None ∨ store !! "token" = Some EmptyString →
  restore_session store trace =
  World store trace [] (State VNull false (localStorage_getItem store "token")).
Proof.
  unfold restore_session, mount, effect, init, localStorage_getItem.
  by intros [-> | ->].
Qed.

(** X6: A reload after [logout] restores nothing: no request is sent, no user is
    set and the loading ends. *)
Theorem reload_after_logout (w : world state) (trace : list request) :
  restore_session (localStorage (exec logout w)) trace =
  World (delete "token" (localStorage w)) trace [] (State VNull false VNull).
Proof.
  replace (localStorage (exec logout w)) with (delete "token" (localStorage w))
    by reflexivity.
  rewrite restore_without_token by (left; apply lookup_delete_eq).
  unfold localStorage_getItem. by rewrite lookup_delete_eq.
Qed.

(** X7: A page loaded with a token that the backend accepts: one request, with
    the stored token as bearer; [currentUser] is the data of the answer,
    the token stays in the state and in [localStorage], the loading ends. *)
Theorem restore_with_valid_token
    (store : gmap string string) (trace : list request) (s : string) (user : value) :
  store !! "token" = Some s →
  s ≠ EmptyString →
  server trace (users_me_request (VStr s)) = Fulfilled user →
  restore_session store trace =
  World store (trace ++ [users_me_request (VStr s)]) [] (State user false (VStr s)).
Proof.
  intros Hs Hne Hr. unfold restore_session, effect, init, localStorage_getItem.
  rewrite Hs. simpl.
  destruct (String.eqb_spec s EmptyString) as [->|_]; [done |]. simpl.
  rewrite (fetchCurrentUser_fulfilled _ _ user) by done.
  unfold mount, init, localStorage_getItem. simpl. by rewrite Hs.
Qed.

(** X8: After [logout] the application shows no protected view at any
    location, and once the loading is over the three protected routes
    render the redirection to [/login]. *)
Theorem logout_closes_protected_views (w : world state) :
  (∀ location v params,
     App (ui (exec logout w)) location = Some (Show v params) → protected_view v = false) ∧
  (loading (ui w) = false →
   ∀ id, App (ui (exec logout w)) ["map"] = Some (Navigate "/login") ∧
         App (ui (exec logout w)) ["add-door"] = Some (Navigate "/login") ∧
         App (ui (exec logout w)) ["doors"; id] = Some (Navigate "/login")).
Proof.
  split.
  - intros location v params. unfold App. simpl.
    destruct (loading (ui w)); simpl; [done |].
    unfold Routes, App_routes, match_route, match_pattern, match_segments,
      render_element, ProtectedRoute, path, route_element.
    intros Hshow. repeat case_match; by simplify_eq.
  - intros Hl id. unfold App. simpl. by rewrite Hl.
Qed.
End session_flows.

(** ** The router, outside the protected routes *)



(** ** The operations of [api], as a whole *)

Section api_answers.
Context `{Backend}.

(** X10: An operation of [api] that reaches its axios call hands the answer
    through: the data of a fulfilled request is returned
    ([markNotificationAsRead] returns [undefined]) and the error of a
    rejected one is thrown again as it is.  It touches nothing but the
    network: [localStorage], the timers and the state of the component stay
    as they are. *)
Theorem api_passes_answers_through {C : Type} (token : value) (c : api_call) (w : world C) :
  reaches_axios c = true →
  ∃ r, requests (api_run token c) w = [r] ∧
       result (api_run token c) w =
         match server (sent w) r with
         | Fulfilled data =>
             inr (match c with
                  | call_markNotificationAsRead _ => VUndefined
                  | _ => data
                  end)
         | Rejected response => inl (AxiosError response)
         end ∧
       localStorage (exec (api_run token c) w) = localStorage w ∧
       intervals (exec (api_run token c) w) = intervals w ∧
       ui (exec (api_run token c) w) = ui w.
Proof.
  intros Hreach.
  destruct c; simpl in *;
    try (eexists; run_js; destruct (server _ _) eqn:Hs; simpl;
         rewrite drop_app_length; repeat split; try done; by rewrite Hs).
  apply negb_true_iff in Hreach.
  destruct (get_prop_defined _ "latitude" Hreach) as [lat Hlat].
  destruct (get_prop_defined _ "longitude" Hreach) as [lon Hlon].
  eexists. run_js. rewrite Hlat, Hlon. simpl.
  destruct (server _ _) eqn:Hs; simpl;
    rewrite drop_app_length; repeat split; try done; by rewrite Hs.
Qed.

Lemma FormData_append_keys (fd : FormData) (name : string) (v : value) :
  fst <$> FormData_append fd name v = (fst <$> fd) ++ [name].
Proof. unfold FormData_append. by rewrite fmap_app. Qed.

Lemma createDoor_fold_keys (doorData : list (string * value)) (keys : list string)
    (fd : FormData) :
  fst <$> foldl (λ fd key,
                   if negb (String.eqb key "location")
                   then FormData_append fd key (default VUndefined (lookup_field key doorData))
                   else fd) fd keys
  = (fst <$> fd) ++ filter (λ k, k ≠ "location") keys.
Proof.
  revert fd. induction keys as [|k keys IH]; intros fd; simpl.
  - by rewrite app_nil_r.
  - rewrite IH. destruct (String.eqb_spec k "location") as [->|Hk]; simpl.
    + by rewrite filter_cons_False by (by intros ?).
    + rewrite filter_cons_True by done.
      rewrite FormData_append_keys. by rewrite <- app_assoc.
Qed.

(** X11: The form that [createDoor] posts, for any door with a location
    whose properties are given in the order of [Object.keys] (no key twice,
    no key made of digits, which would be listed first): its fields are the
    properties of the door in their order, [location] left out, followed by
    [latitude] and [longitude].  The location itself is never a field of
    the form. *)
Theorem createDoor_form_fields {C : Type} (token : value)
    (doorData : list (string * value)) (w : world C) :
  own_property_order doorData →
  nullish (default VUndefined (lookup_field "location" doorData)) = false →
  ∃ entries,
    body <$> requests (api.createDoor token doorData) w = [Form entries] ∧
    fst <$> entries
      = filter (λ k, k ≠ "location") (fst <$> doorData) ++ ["latitude"; "longitude"] ∧
    "location" ∉ (fst <$> entries).
Proof.
  intros _ Hloc.
  destruct (get_prop_defined _ "latitude" Hloc) as [lat Hlat].
  destruct (get_prop_defined _ "longitude" Hloc) as [lon Hlon].
  eexists. split; [| split].
  - run_js. rewrite Hlat, Hlon. simpl.
    destruct (server _ _); simpl; by rewrite drop_app_length.
  - rewrite !FormData_append_keys, createDoor_fold_keys. simpl.
    by rewrite <- app_assoc.
  - rewrite !FormData_append_keys, createDoor_fold_keys. simpl.
    rewrite !elem_of_app, list_elem_of_filter, !list_elem_of_singleton.
    intros [[[Hne _] | ?] | ?]; done.
Qed.
End api_answers.

(** ** [Login] and [Register]: the forms *)

Section forms.
Context `{Backend}.

Lemma register_run (name email password : string) (w : world AuthProvider.state) :
  AuthProvider.register name email password w =
  (World (localStorage w) (sent w ++ [register_request name email password])
     (intervals w) (ui w),
   match server (sent w) (register_request name email password) with
   | Fulfilled _ => inr true
   | Rejected response => inl (Error (failure_message response "Registration failed"))
   end).
Proof.
  unfold AuthProvider.register, register_request, failure_message. run_js.
  by destruct (server _ _).
Qed.

(** X12: The login form, when the backend issues a token: the token is stored
    and set, the form navigates to [/], shows no error and is no longer
    loading. *)
Theorem Login_submit_fulfilled (w : world (page Login.state))
    (fields : list (string * value)) (access_token : value) :
  server (sent w)
    (token_request (Login.email (own (ui w))) (Login.password (own (ui w))))
    = Fulfilled (VObj fields) →
  lookup_field "access_token" fields = Some access_token →
  Login.onSubmit w =
  (World (<[ "token" := to_string access_token ]> (localStorage w))
     (sent w ++ [token_request (Login.email (own (ui w))) (Login.password (own (ui w)))])
     (intervals w)
     (Page (AuthProvider.State (AuthProvider.currentUser (auth (ui w)))
              (AuthProvider.loading (auth (ui w))) access_token)
        (Login.State (Login.email (own (ui w))) (Login.password (own (ui w)))
           false EmptyString)
        (navigated (ui w) ++ ["/"])),
   inr tt).
Proof.
  intros Hr Hf. unfold Login.onSubmit, Login.handleSubmit. run_js.
  rewrite login_run. simpl. rewrite Hr. simpl. by rewrite Hf.
Qed.

(** X13: The login form, when the backend rejects the credentials: the form
    stays where it is, shows the [detail] of the answer (or [Login failed])
    and is no longer loading; nothing is stored and the session is
    untouched. *)
Theorem Login_submit_rejected (w : world (page Login.state)) (response : value) :
  server (sent w)
    (token_request (Login.email (own (ui w))) (Login.password (own (ui w))))
    = Rejected response →
  Login.onSubmit w =
  (World (localStorage w)
     (sent w ++ [token_request (Login.email (own (ui w))) (Login.password (own (ui w)))])
     (intervals w)
     (Page (auth (ui w))
        (Login.State (Login.email (own (ui w))) (Login.password (own (ui w)))
           false (failure_message response "Login failed"))
        (navigated (ui w))),
   inr tt).
Proof.
  intros Hr. unfold Login.onSubmit, Login.handleSubmit. run_js.
  rewrite login_run. simpl. by rewrite Hr.
Qed.

(** X14: The registration form with two different passwords: nothing is sent;
    the form only shows [Passwords do not match]. *)
Theorem Register_password_mismatch (w : world (page Register.state)) :
  Register.password (own (ui w)) ≠ Register.confirmPassword (own (ui w)) →
  Register.onSubmit w =
  (World (localStorage w) (sent w) (intervals w)
     (Page (auth (ui w))
        (Register.State (Register.name (own (ui w))) (Register.email (own (ui w)))
           (Register.password (own (ui w))) (Register.confirmPassword (own (ui w)))
           (Register.loading (own (ui w))) "Passwords do not match")
        (navigated (ui w))),
   inr tt).
Proof.
  intros Hne. unfold Register.onSubmit, Register.handleSubmit. cbv zeta.
  destruct (String.eqb_spec (Register.password (own (ui w)))
              (Register.confirmPassword (own (ui w)))); [done |].
  by run_js.
Qed.

(** X15: The registration form, when the backend rejects the registration: the
    login is not attempted.  One request has been sent, the form shows the
    message of the failure and nothing is stored. *)
Theorem Register_rejected_never_logs_in (w : world (page Register.state)) (response : value) :
  Register.password (own (ui w)) = Register.confirmPassword (own (ui w)) →
  server (sent w)
    (register_request (Register.name (own (ui w))) (Register.email (own (ui w)))
       (Register.password (own (ui w))))
    = Rejected response →
  Register.onSubmit w =
  (World (localStorage w)
     (sent w ++ [register_request (Register.name (own (ui w)))
                   (Register.email (own (ui w))) (Register.password (own (ui w)))])
     (intervals w)
     (Page (auth (ui w))
        (Register.State (Register.name (own (ui w))) (Register.email (own (ui w)))
           (Register.password (own (ui w))) (Register.confirmPassword (own (ui w)))
           false (failure_message response "Registration failed"))
        (navigated (ui w))),
   inr tt).
Proof.
  intros Heq Hr. unfold Register.onSubmit, Register.handleSubmit. cbv zeta.
  destruct (String.eqb_spec (Register.password (own (ui w)))
              (Register.confirmPassword (own (ui w)))); [| done].
  run_js. rewrite register_run. simpl. by rewrite Hr.
Qed.

(** X16: The registration form, when the backend accepts the registration and
    then the login: the two requests go out in this order, the token is
    stored and set, and the form navigates to [/]. *)
Theorem Register_then_login (w : world (page Register.state))
    (created : value) (fields : list (string * value)) (access_token : value) :
  Register.password (own (ui w)) = Register.confirmPassword (own (ui w)) →
  server (sent w)
    (register_request (Register.name (own (ui w))) (Register.email (own (ui w)))
       (Register.password (own (ui w))))
    = Fulfilled created →
  server (sent w ++ [register_request (Register.name (own (ui w)))
                       (Register.email (own (ui w))) (Register.password (own (ui w)))])
    (token_request (Register.email (own (ui w))) (Register.password (own (ui w))))
    = Fulfilled (VObj fields) →
  lookup_field "access_token" fields = Some access_token →
  Register.onSubmit w =
  (World (<[ "token" := to_string access_token ]> (localStorage w))
     (sent w ++ [register_request (Register.name (own (ui w)))
                   (Register.email (own (ui w))) (Register.password (own (ui w)))]
             ++ [token_request (Register.email (own (ui w)))
                   (Register.password (own (ui w)))])
     (intervals w)
     (Page (AuthProvider.State (AuthProvider.currentUser (auth (ui w)))
              (AuthProvider.loading (auth (ui w))) access_token)
        (Register.State (Register.name (own (ui w))) (Register.email (own (ui w)))
           (Register.password (own (ui w))) (Register.confirmPassword (own (ui w)))
           false EmptyString)
        (navigated (ui w) ++ ["/"])),
   inr tt).
Proof.
  intros Heq Hr Hl Hf. unfold Register.onSubmit, Register.handleSubmit. cbv zeta.
  destruct (String.eqb_spec (Register.password (own (ui w)))
              (Register.confirmPassword (own (ui w)))); [| done].
  run_js. rewrite register_run. simpl. rewrite Hr.
  rewrite login_run. simpl. rewrite Hl. simpl. rewrite Hf.
  by rewrite <- app_assoc.
Qed.
End forms.

(** ** [NavBar]: the notifications *)

Section notifications.
Context `{Backend}.
Import NavBar.

Lemma fetchNotifications_run (token : value) (w : world state) :
  fetchNotifications token w =
  (World (localStorage w) (sent w ++ [notifications_request token]) (intervals w)
     (State (match server (sent w) (notifications_request token) with
             | Fulfilled data => data
             | Rejected _ => notifications (ui w)
             end)
        (showNotifications (ui w))),
   inr tt).
Proof.
  unfold fetchNotifications, setNotifications, notifications_request. run_js.
  destruct (server _ _); simpl; by destruct (ui w).
Qed.

(** X17: A click on a notification whose marking the backend rejects: the
    handler stops there.  The list is not fetched again, nothing is
    navigated to and the menu stays as it is. *)
Theorem notification_click_rejected (token : value) (fields : list (string * value))
    (w : world (page state)) (response : value) :
  server (sent w) (read_request token (default VUndefined (lookup_field "id" fields)))
    = Rejected response →
  handleNotificationClick token (VObj fields) w =
  (World (localStorage w)
     (sent w ++ [read_request token (default VUndefined (lookup_field "id" fields))])
     (intervals w) (ui w),
   inr tt).
Proof.
  intros Hr. unfold handleNotificationClick. run_js.
  change (Request POST _ _ _) with
    (read_request token (default VUndefined (lookup_field "id" fields))).
  rewrite Hr. by destruct w.
Qed.

(** X18: A click on a notification that the backend marks as read: the mark is
    sent first and the list is fetched again after it; the handler
    navigates to [/doors/] followed by the [door_id] of the notification and
    closes the menu.  The list shown becomes the one of the new answer, or
    stays when that fetch fails. *)
Theorem notification_click_fulfilled (token : value) (fields : list (string * value))
    (w : world (page state)) (data : value) :
  server (sent w) (read_request token (default VUndefined (lookup_field "id" fields)))
    = Fulfilled data →
  handleNotificationClick token (VObj fields) w =
  (World (localStorage w)
     (sent w ++ [read_request token (default VUndefined (lookup_field "id" fields))]
             ++ [notifications_request token])
     (intervals w)
     (Page (auth (ui w))
        (State
           (match server
                    (sent w ++ [read_request token
                                  (default VUndefined (lookup_field "id" fields))])
                    (notifications_request token) with
            | Fulfilled list => list
            | Rejected _ => notifications (own (ui w))
            end)
           false)
        (navigated (ui w)
           ++ ["/doors/" +:+ to_string (default VUndefined (lookup_field "door_id" fields))])),
   inr tt).
Proof.
  intros Hr. unfold handleNotificationClick, setShowNotifications. run_js.
  change (Request POST _ _ _) with
    (read_request token (default VUndefined (lookup_field "id" fields))).
  rewrite Hr. rewrite fetchNotifications_run. simpl.
  by rewrite <- app_assoc.
Qed.

(** X19: The number on the bell, for a list that can be rendered: it is at most
    the number of notifications, and it is zero, so that no badge is shown,
    exactly when every notification has a truthy [is_read]. *)
Theorem unreadCount_bounds (items : list value) (n : nat) :
  unreadCount (VArr items) = inr n →
  (n ≤ length items)%nat ∧
  (n = 0%nat ↔ Forall (λ x, truthy (opt_prop x "is_read") = true) items).
Proof.
  revert n. induction items as [|x items IH]; intros n; simpl.
  - intros [= <-]. split; [lia | split; [constructor | done]].
  - destruct (get_prop x "is_read") as [e|r] eqn:Hx; [done |].
    fold (unreadCount (VArr items)).
    destruct (unreadCount (VArr items)) as [e|k]; [done |].
    destruct (IH k eq_refl) as [Hle Hzero].
    intros [= <-]. rewrite Forall_cons. unfold opt_prop at 1. rewrite Hx.
    destruct (truthy r); simpl; (split; [lia |]).
    + rewrite Hzero. split; [by split | by intros [_ ?]].
    + split; [lia | by intros [? _]].
Qed.

(** A list with [null] in it, or a value that is no array, cannot be
    counted: the render of [NavBar] throws a [TypeError]. *)
Lemma unreadCount_of_object (fields : list (string * value)) :
  unreadCount (VObj fields) = inl (TypeError "notifications.filter is not a function").
Proof. done. Qed.
End notifications.

(** ** [Home] and [MapView]: fetching the doors *)

Section door_fetches.
Context `{Backend}.

(** X20: A click on a filter button other than the active one, and the fetch
    that the effect of [Home] then makes, the active category being one of
    its dependencies: the request is the one for the category of the
    button.  When it is fulfilled the list is the data of the answer; when
    it is rejected the list stays the one that was shown before the click,
    now under the new filter.  Either way the loading ends and nothing is
    thrown.  (A click on the active filter changes no dependency, and the
    effect does not run.) *)
Theorem filter_click_then_fetch (b : filter_button) (token : value) (w : world Home.state) :
  Home.activeCategory (ui w) ≠ Home.category_value (button_category b) →
  Home.effect true token (exec (Home.onClick b) w) =
  (World (localStorage w) (sent w ++ [doors_request token (button_category b)]) (intervals w)
     (Home.State
        (match server (sent w) (doors_request token (button_category b)) with
         | Fulfilled data => data
         | Rejected _ => Home.doors (ui w)
         end)
        false (Home.category_value (button_category b))),
   inr tt).
Proof.
  intros _. unfold Home.effect.
  replace (Home.activeCategory (ui (exec (Home.onClick b) w)))
    with (Home.category_value (button_category b)) by (by destruct b).
  rewrite fetchDoors_run. cbv zeta.
  replace (sent (exec (Home.onClick b) w)) with (sent w) by (by destruct b).
  destruct (server _ _); by destruct b.
Qed.

(** X21: [MapView] asks for the doors of every category: its request is the one
    of [Home] without a filter.  A rejected request leaves the doors as they
    were; the loading ends either way. *)
Theorem MapView_fetches_all_doors (token : value) (w : world MapView.state) :
  MapView.fetchDoors token w =
  (World (localStorage w) (sent w ++ [doors_request token None]) (intervals w)
     (MapView.State
        (match server (sent w) (doors_request token None) with
         | Fulfilled data => data
         | Rejected _ => MapView.doors (ui w)
         end)
        false (MapView.viewport (ui w))),
   inr tt).
Proof.
  unfold MapView.fetchDoors, MapView.setLoading, MapView.setDoors, doors_request. run_js.
  by destruct (server _ _).
Qed.
End door_fetches.

(** ** [AddDoor]: the submission form *)

Section submission.
Context `{Backend}.
Import AddDoor.

Lemma truthy_get_prop (v : value) (key : string) :
  truthy v = true → get_prop v key = inr (opt_prop v key).
Proof. unfold opt_prop. by destruct v. Qed.

Lemma onSubmit_incomplete (token : value) (w : world (page state)) (message : string) :
  missing_field (own (ui w)) = Some message →
  onSubmit token w = with_own (setError message) w.
Proof.
  unfold missing_field, onSubmit, handleSubmit. intros Hm.
  destruct (truthy (image (own (ui w)))); simpl in *; [| by simplify_eq].
  destruct (String.eqb (category (own (ui w))) EmptyString); simpl in *;
    [by simplify_eq |].
  destruct (truthy (location (own (ui w)))); simpl in *; [done | by simplify_eq].
Qed.

Lemma onSubmit_complete (token : value) (w : world (page state)) :
  missing_field (own (ui w)) = None →
  onSubmit token w =
  let s := own (ui w) in
  let r := new_door_request token s
             (opt_prop (location s) "latitude") (opt_prop (location s) "longitude") in
  (World (localStorage w) (sent w ++ [r]) (intervals w)
     (Page (auth (ui w))
        (State (title s) (description s) (placeName s) (history s) (category s)
           (image s) (imagePreview s) (location s) (loadingLocation s) false
           (match server (sent w) r with
            | Fulfilled _ => EmptyString
            | Rejected _ => "Failed to add door. Please try again."
            end))
        (navigated (ui w)
           ++ match server (sent w) r with
              | Fulfilled _ => ["/"]
              | Rejected _ => []
              end)),
   inr tt).
Proof.
  unfold missing_field, onSubmit, handleSubmit. intros Hm.
  destruct (truthy (image (own (ui w)))) eqn:Hi; simpl in Hm; [| done].
  destruct (String.eqb (category (own (ui w))) EmptyString) eqn:Hc; simpl in Hm; [done |].
  destruct (truthy (location (own (ui w)))) eqn:Hl; simpl in Hm; [| done].
  cbn [truthy negb]. rewrite Hc. cbn [negb].
  unfold doorData, setSubmitting, setError, new_door_request, form_value. run_js.
  rewrite !(truthy_get_prop _ _ Hl). unfold FormData_append. simpl.
  destruct (server _ _); simpl; by rewrite ?app_nil_r.
Qed.

(** X22: A form with the image, the category or the location missing is not
    sent: the handler only sets the message for the first of them that is
    missing, and navigates nowhere. *)
Theorem AddDoor_submit_incomplete (token : value) (w : world (page state)) (message : string) :
  missing_field (own (ui w)) = Some message →
  requests (onSubmit token) w = [] ∧
  navigated (ui (exec (onSubmit token) w)) = navigated (ui w) ∧
  error (own (ui (exec (onSubmit token) w))) = message ∧
  submitting (own (ui (exec (onSubmit token) w))) = submitting (own (ui w)).
Proof.
  intros Hm. unfold requests, exec. rewrite (onSubmit_incomplete _ _ message) by done.
  unfold setError. run_js. by rewrite drop_all.
Qed.

(** X23: A complete form is posted once, as [multipart/form-data] with the
    bearer token: the fields in the order title, description, place_name,
    history, category, image, latitude, longitude.  When the backend
    fulfils the request the handler navigates to [/]; when it rejects it the
    form shows [Failed to add door. Please try again.] and stays.  Either
    way the submitting ends and nothing is thrown. *)
Theorem AddDoor_submit_complete (token : value) (w : world (page state)) (r : request) :
  missing_field (own (ui w)) = None →
  r = new_door_request token (own (ui w))
        (opt_prop (location (own (ui w))) "latitude")
        (opt_prop (location (own (ui w))) "longitude") →
  requests (onSubmit token) w = [r] ∧
  result (onSubmit token) w = inr tt ∧
  submitting (own (ui (exec (onSubmit token) w))) = false ∧
  (∀ data, server (sent w) r = Fulfilled data →
     navigated (ui (exec (onSubmit token) w)) = navigated (ui w) ++ ["/"] ∧
     error (own (ui (exec (onSubmit token) w))) = EmptyString) ∧
  (∀ response, server (sent w) r = Rejected response →
     navigated (ui (exec (onSubmit token) w)) = navigated (ui w) ∧
     error (own (ui (exec (onSubmit token) w))) = "Failed to add door. Please try again.").
Proof.
  intros Hm ->. unfold requests, exec, result. rewrite onSubmit_complete by done.
  cbv zeta. simpl. rewrite drop_app_length.
  split; [done |]. split; [done |]. split; [done |]. split.
  - intros data Hr. by rewrite Hr.
  - intros response Hr. rewrite Hr. by rewrite app_nil_r.
Qed.

(** X24: The coordinates that are posted are those that the browser gave: after
    [getCurrentPosition] answers with a position, a form with an image and
    a category sends that latitude and longitude. *)
Theorem AddDoor_posts_the_position (token latitude longitude : value)
    (w : world (page state)) :
  truthy (image (own (ui w))) = true →
  category (own (ui w)) ≠ EmptyString →
  requests (onSubmit token) (exec (with_own (effect (Position latitude longitude))) w)
  = [new_door_request token (own (ui w)) latitude longitude].
Proof.
  intros Hi Hc.
  assert (Hm : missing_field (own (ui (exec (with_own (effect (Position latitude longitude))) w)))
               = None).
  { unfold missing_field. simpl. rewrite Hi. simpl.
    by destruct (String.eqb_spec (category (own (ui w))) EmptyString). }
  unfold requests. unfold exec at 2. rewrite (onSubmit_complete _ _ Hm).
  simpl. by rewrite drop_app_length.
Qed.

(** X25: Without a position the form cannot be sent: when the browser has no
    geolocation, has not answered or fails, a submission of the form sends
    nothing, whatever else was filled in. *)
Theorem AddDoor_without_position (token : value) (g : geolocation) (w : world (page state)) :
  location (own (ui w)) = VNull →
  (∀ latitude longitude, g ≠ Position latitude longitude) →
  requests (onSubmit token) (exec (with_own (effect g)) w) = [].
Proof.
  intros Hl Hg.
  assert (∃ message,
            missing_field (own (ui (exec (with_own (effect g)) w))) = Some message)
    as [message Hm].
  { unfold missing_field.
    destruct g as [| | |latitude longitude]; [| | | by destruct (Hg latitude longitude)];
      simpl; rewrite Hl; simpl; repeat case_match; eauto. }
  unfold requests. unfold exec at 2. rewrite (onSubmit_incomplete _ _ message) by done.
  unfold setError. destruct g; run_js; by rewrite drop_all.
Qed.
End submission.

(** ** [DoorDetail]: loading the door *)

Section door_detail.
Context `{Backend}.
Import DoorDetail.

(** The effect of [DoorDetail], by the answers of the backend. *)
Lemma fetchDoorAndComments_run (token id : value) (w : world (page state)) :
  fetchDoorAndComments token id w =
  let s := own (ui w) in
  let door_r := door_request token id in
  let comments_r := comments_request token id in
  match server (sent w) door_r with
  | Rejected _ =>
      (World (localStorage w) (sent w ++ [door_r]) (intervals w)
         (Page (auth (ui w))
            (State (door s) (comments s) (newComment s) false (submitting s))
            (navigated (ui w) ++ ["/"])),
       inr tt)
  | Fulfilled doorData =>
      match server (sent w ++ [door_r]) comments_r with
      | Rejected _ =>
          (World (localStorage w) (sent w ++ [door_r] ++ [comments_r]) (intervals w)
             (Page (auth (ui w))
                (State doorData (comments s) (newComment s) false (submitting s))
                (navigated (ui w) ++ ["/"])),
           inr tt)
      | Fulfilled commentsData =>
          (World (localStorage w) (sent w ++ [door_r] ++ [comments_r]) (intervals w)
             (Page (auth (ui w))
                (State doorData commentsData (newComment s) false (submitting s))
                (navigated (ui w))),
           inr tt)
      end
  end.
Proof.
  unfold fetchDoorAndComments, setLoading, setDoor, setComments,
    door_request, comments_request. run_js.
  destruct (server _ _); simpl; [| done].
  destruct (server _ _); simpl; by rewrite <- app_assoc.
Qed.

(** X26: When the door cannot be fetched, its comments are not asked for: the
    one request is the one for the door, the view navigates to [/], keeps
    what it showed and stops loading. *)
Theorem DoorDetail_door_rejected (token id : value) (w : world (page state))
    (response : value) :
  server (sent w) (door_request token id) = Rejected response →
  requests (fetchDoorAndComments token id) w = [door_request token id] ∧
  navigated (ui (exec (fetchDoorAndComments token id) w)) = navigated (ui w) ++ ["/"] ∧
  door (own (ui (exec (fetchDoorAndComments token id) w))) = door (own (ui w)) ∧
  comments (own (ui (exec (fetchDoorAndComments token id) w))) = comments (own (ui w)) ∧
  loading (own (ui (exec (fetchDoorAndComments token id) w))) = false.
Proof.
  intros Hr. unfold requests, exec. rewrite fetchDoorAndComments_run. cbv zeta.
  rewrite Hr. simpl. by rewrite drop_app_length.
Qed.

(** X27: When the door and then its comments are fetched, the two requests go
    out in this order, the view shows the data of the two answers, stops
    loading and navigates nowhere. *)
Theorem DoorDetail_loaded (token id : value) (w : world (page state))
    (doorData commentsData : value) :
  server (sent w) (door_request token id) = Fulfilled doorData →
  server (sent w ++ [door_request token id]) (comments_request token id)
    = Fulfilled commentsData →
  requests (fetchDoorAndComments token id) w
    = [door_request token id; comments_request token id] ∧
  door (own (ui (exec (fetchDoorAndComments token id) w))) = doorData ∧
  comments (own (ui (exec (fetchDoorAndComments token id) w))) = commentsData ∧
  loading (own (ui (exec (fetchDoorAndComments token id) w))) = false ∧
  navigated (ui (exec (fetchDoorAndComments token id) w)) = navigated (ui w).
Proof.
  intros Hd Hc. unfold requests, exec. rewrite fetchDoorAndComments_run. cbv zeta.
  rewrite Hd, Hc. simpl. by rewrite drop_app_length.
Qed.

(** X28: When the door is fetched but its comments are not, the view has
    already taken the door: it keeps the comments it had, stops loading and
    navigates to [/]. *)
Theorem DoorDetail_comments_rejected (token id : value) (w : world (page state))
    (doorData response : value) :
  server (sent w) (door_request token id) = Fulfilled doorData →
  server (sent w ++ [door_request token id]) (comments_request token id)
    = Rejected response →
  requests (fetchDoorAndComments token id) w
    = [door_request token id; comments_request token id] ∧
  door (own (ui (exec (fetchDoorAndComments token id) w))) = doorData ∧
  comments (own (ui (exec (fetchDoorAndComments token id) w))) = comments (own (ui w)) ∧
  loading (own (ui (exec (fetchDoorAndComments token id) w))) = false ∧
  navigated (ui (exec (fetchDoorAndComments token id) w)) = navigated (ui w) ++ ["/"].
Proof.
  intros Hd Hc. unfold requests, exec. rewrite fetchDoorAndComments_run. cbv zeta.
  rewrite Hd, Hc. simpl. by rewrite drop_app_length.
Qed.

(** X29: From the page to a new comment: the door and its comments are loaded,
    a draft that is not blank is typed and the form is submitted.  When the
    backend fulfils the three requests, the comments shown are those it
    listed followed by the one it created, and the draft is empty again. *)
Theorem load_type_and_comment (token id : value) (w : world (page state))
    (doorData : value) (items : list value) (draft : string) (createdComment : value) :
  trim draft ≠ EmptyString →
  server (sent w) (door_request token id) = Fulfilled doorData →
  server (sent w ++ [door_request token id]) (comments_request token id)
    = Fulfilled (VArr items) →
  server (sent w ++ [door_request token id; comments_request token id])
    (comment_request token id draft) = Fulfilled createdComment →
  exec (with_own (onSubmit token id))
    (exec (with_own (setNewComment draft))
       (exec (fetchDoorAndComments token id) w)) =
  World (localStorage w)
    (sent w ++ [door_request token id; comments_request token id;
                comment_request token id draft])
    (intervals w)
    (Page (auth (ui w))
       (State doorData (VArr (items ++ [createdComment])) EmptyString false false)
       (navigated (ui w))).
Proof.
  intros Hdraft Hd Hc Hn. unfold exec at 3. rewrite fetchDoorAndComments_run. cbv zeta.
  rewrite Hd, Hc. unfold exec at 2. unfold setNewComment. run_js.
  rewrite onSubmit_run by done. cbv zeta. simpl. rewrite Hn. simpl.
  by rewrite <- !app_assoc.
Qed.
End door_detail.

(** * More of the client, at work *)

(** An answer without [access_token], and an answer of [null]. *)
Lemma login_on_malformed_answer_witness :
  (result (@AuthProvider.login (constant_backend (Fulfilled (VObj []))) "ada@example.org" "x")
     (new_tab signed_out) = inr true ∧
   localStorage
     (exec (@AuthProvider.login (constant_backend (Fulfilled (VObj []))) "ada@example.org" "x")
        (new_tab signed_out)) !! "token" = Some "undefined" ∧
   AuthProvider.token
     (ui (exec (@AuthProvider.login (constant_backend (Fulfilled (VObj []))) "ada@example.org" "x")
            (new_tab signed_out))) = VUndefined) ∧
  (result (@AuthProvider.login (constant_backend (Fulfilled VNull)) "ada@example.org" "x")
     (new_tab signed_out) = inl (Error "Login failed") ∧
   localStorage
     (exec (@AuthProvider.login (constant_backend (Fulfilled VNull)) "ada@example.org" "x")
        (new_tab signed_out)) = ∅ ∧
   ui (exec (@AuthProvider.login (constant_backend (Fulfilled VNull)) "ada@example.org" "x")
         (new_tab signed_out)) = signed_out).
Proof.
  split.
  - exact (proj2 (@login_on_malformed_answer (constant_backend (Fulfilled (VObj [])))
                    "ada@example.org" "x" (new_tab signed_out) (VObj []) eq_refl) eq_refl).
  - exact (proj1 (@login_on_malformed_answer (constant_backend (Fulfilled VNull))
                    "ada@example.org" "x" (new_tab signed_out) VNull eq_refl) eq_refl).
Defined.

Lemma login_then_effect_opens_session_witness :
  exec (@AuthProvider.effect demo_backend
          (AuthProvider.token
             (ui (exec (@AuthProvider.login demo_backend "ada@example.org" "hunter2")
                    (new_tab signed_out)))))
    (exec (@AuthProvider.login demo_backend "ada@example.org" "hunter2") (new_tab signed_out))
  = World (<[ "token" := "jwt-ada@example.org" ]> ∅)
      ([] ++ [@token_request demo_backend "ada@example.org" "hunter2"]
          ++ [@users_me_request demo_backend (VStr "jwt-ada@example.org")])
      [] (AuthProvider.State demo_user false (VStr "jwt-ada@example.org")).
Proof.
  exact (@login_then_effect_opens_session demo_backend "ada@example.org" "hunter2"
           (new_tab signed_out)
           [("access_token", VStr "jwt-ada@example.org"); ("token_type", VStr "bearer")]
           (VStr "jwt-ada@example.org") demo_user eq_refl eq_refl
           ltac:(discriminate) eq_refl eq_refl).
Defined.

(** A token for a user that [demo_server] does not know. *)
Lemma login_then_effect_rejected_witness :
  exec (@AuthProvider.effect demo_backend
          (AuthProvider.token
             (ui (exec (@AuthProvider.login demo_backend "bob@example.org" "hunter2")
                    (new_tab signed_out)))))
    (exec (@AuthProvider.login demo_backend "bob@example.org" "hunter2") (new_tab signed_out))
  = World (delete "token" ∅)
      ([] ++ [@token_request demo_backend "bob@example.org" "hunter2"]
          ++ [@users_me_request demo_backend (VStr "jwt-bob@example.org")])
      [] (AuthProvider.State VNull false VNull).
Proof.
  exact (@login_then_effect_rejected demo_backend "bob@example.org" "hunter2"
           (new_tab signed_out)
           [("access_token", VStr "jwt-bob@example.org"); ("token_type", VStr "bearer")]
           (VStr "jwt-bob@example.org") demo_unauthorized eq_refl eq_refl
           ltac:(discriminate) eq_refl eq_refl).
Defined.

Lemma login_survives_reload_witness :
  AuthProvider.token
    (AuthProvider.init
       (localStorage (exec (@AuthProvider.login demo_backend "ada@example.org" "hunter2")
                        (new_tab signed_out))))
  = VStr "jwt-ada@example.org".
Proof.
  exact (proj1 (@login_survives_reload demo_backend "ada@example.org" "hunter2"
                  (new_tab signed_out)
                  [("access_token", VStr "jwt-ada@example.org"); ("token_type", VStr "bearer")]
                  (VStr "jwt-ada@example.org") eq_refl eq_refl)).
Defined.

Lemma restore_with_valid_token_witness :
  @AuthProvider.restore_session demo_backend {[ "token" := "jwt-ada@example.org" ]} []
  = World {[ "token" := "jwt-ada@example.org" ]}
      ([] ++ [@users_me_request demo_backend (VStr "jwt-ada@example.org")]) []
      (AuthProvider.State demo_user false (VStr "jwt-ada@example.org")).
Proof.
  exact (@restore_with_valid_token demo_backend {[ "token" := "jwt-ada@example.org" ]} []
           "jwt-ada@example.org" demo_user eq_refl ltac:(discriminate) eq_refl).
Defined.

Lemma logout_closes_protected_views_witness :
  App (ui (exec AuthProvider.logout (new_tab signed_in))) ["map"] = Some (Navigate "/login") ∧
  App (ui (exec AuthProvider.logout (new_tab signed_in))) ["add-door"]
    = Some (Navigate "/login") ∧
  App (ui (exec AuthProvider.logout (new_tab signed_in))) ["doors"; "door-A"]
    = Some (Navigate "/login").
Proof.
  exact (proj2 (logout_closes_protected_views (new_tab signed_in)) eq_refl "door-A").
Defined.


Lemma api_passes_answers_through_witness :
  ∃ r, requests (@api_run full_backend unit (VStr "jwt-ada@example.org")
                   (call_getComments (VStr "door-A"))) (new_tab ()) = [r] ∧
       result (@api_run full_backend unit (VStr "jwt-ada@example.org")
                 (call_getComments (VStr "door-A"))) (new_tab ()) =
         match full_server [] r with
         | Fulfilled data => inr data
         | Rejected response => inl (AxiosError response)
         end ∧
       localStorage (exec (@api_run full_backend unit (VStr "jwt-ada@example.org")
                             (call_getComments (VStr "door-A"))) (new_tab ())) = ∅ ∧
       intervals (exec (@api_run full_backend unit (VStr "jwt-ada@example.org")
                          (call_getComments (VStr "door-A"))) (new_tab ())) = [] ∧
       ui (exec (@api_run full_backend unit (VStr "jwt-ada@example.org")
                   (call_getComments (VStr "door-A"))) (new_tab ())) = ().
Proof.
  exact (@api_passes_answers_through full_backend unit (VStr "jwt-ada@example.org")
           (call_getComments (VStr "door-A")) (new_tab ()) eq_refl).
Defined.

Lemma createDoor_form_fields_witness :
  ∃ entries,
    body <$> requests
      (@api.createDoor full_backend unit (VStr "jwt-ada@example.org")
         [("title", VStr "Blue gate");
          ("location", VObj [("latitude", VNum "52.5"); ("longitude", VNum "13.4")]);
          ("image", VFile "gate.jpg")])
      (new_tab ()) = [Form entries] ∧
    fst <$> entries
      = filter (λ k, k ≠ "location") ["title"; "location"; "image"]
          ++ ["latitude"; "longitude"] ∧
    "location" ∉ (fst <$> entries).
Proof.
  exact (@createDoor_form_fields full_backend unit (VStr "jwt-ada@example.org")
           [("title", VStr "Blue gate");
            ("location", VObj [("latitude", VNum "52.5"); ("longitude", VNum "13.4")]);
            ("image", VFile "gate.jpg")]
           (new_tab ())
           ltac:(split;
                 [refine (@bool_decide_unpack _ (NoDup_dec _) _); vm_compute; exact I
                 | by repeat constructor])
           eq_refl).
Defined.

Lemma Login_submit_fulfilled_witness :
  @Login.onSubmit demo_backend (login_form "ada@example.org" "hunter2") =
  (World (<[ "token" := "jwt-ada@example.org" ]> ∅)
     ([] ++ [@token_request demo_backend "ada@example.org" "hunter2"]) []
     (Page (AuthProvider.State VNull false (VStr "jwt-ada@example.org"))
        (Login.State "ada@example.org" "hunter2" false EmptyString)
        ([] ++ ["/"])),
   inr tt).
Proof.
  exact (@Login_submit_fulfilled demo_backend (login_form "ada@example.org" "hunter2")
           [("access_token", VStr "jwt-ada@example.org"); ("token_type", VStr "bearer")]
           (VStr "jwt-ada@example.org") eq_refl eq_refl).
Defined.

Lemma Login_submit_rejected_witness :
  @Login.onSubmit demo_backend (login_form "ada@example.org" "letmein") =
  (World ∅ ([] ++ [@token_request demo_backend "ada@example.org" "letmein"]) []
     (Page signed_out
        (Login.State "ada@example.org" "letmein" false "Incorrect email or password")
        []),
   inr tt).
Proof.
  exact (@Login_submit_rejected demo_backend (login_form "ada@example.org" "letmein")
           demo_unauthorized eq_refl).
Defined.

Lemma Register_password_mismatch_witness :
  @Register.onSubmit full_backend (register_form "Bob" "bob@example.org" "hunter2" "hunter3") =
  (World ∅ [] []
     (Page signed_out
        (Register.State "Bob" "bob@example.org" "hunter2" "hunter3" false
           "Passwords do not match")
        []),
   inr tt).
Proof.
  exact (@Register_password_mismatch full_backend
           (register_form "Bob" "bob@example.org" "hunter2" "hunter3") ltac:(discriminate)).
Defined.

(** [full_server] has the account of Ada already. *)
Lemma Register_rejected_never_logs_in_witness :
  @Register.onSubmit full_backend (register_form "Ada" "ada@example.org" "hunter2" "hunter2") =
  (World ∅ ([] ++ [@register_request full_backend "Ada" "ada@example.org" "hunter2"]) []
     (Page signed_out
        (Register.State "Ada" "ada@example.org" "hunter2" "hunter2" false
           "Email already registered")
        []),
   inr tt).
Proof.
  exact (@Register_rejected_never_logs_in full_backend
           (register_form "Ada" "ada@example.org" "hunter2" "hunter2")
           (VObj [("status", VNum "400");
                  ("data", VObj [("detail", VStr "Email already registered")])])
           eq_refl eq_refl).
Defined.

Lemma Register_then_login_witness :
  @Register.onSubmit full_backend (register_form "Bob" "bob@example.org" "hunter2" "hunter2") =
  (World (<[ "token" := "jwt-bob@example.org" ]> ∅)
     ([] ++ [@register_request full_backend "Bob" "bob@example.org" "hunter2"]
         ++ [@token_request full_backend "bob@example.org" "hunter2"]) []
     (Page (AuthProvider.State VNull false (VStr "jwt-bob@example.org"))
        (Register.State "Bob" "bob@example.org" "hunter2" "hunter2" false EmptyString)
        ([] ++ ["/"])),
   inr tt).
Proof.
  exact (@Register_then_login full_backend
           (register_form "Bob" "bob@example.org" "hunter2" "hunter2")
           (VObj [("id", VStr "u2"); ("email", VStr "bob@example.org")])
           [("access_token", VStr "jwt-bob@example.org"); ("token_type", VStr "bearer")]
           (VStr "jwt-bob@example.org") eq_refl eq_refl eq_refl eq_refl).
Defined.

(** [demo_server] cannot mark a notification as read; [full_server] can. *)
Lemma notification_click_rejected_witness :
  @NavBar.handleNotificationClick demo_backend (VStr "jwt-ada@example.org")
    demo_notification navbar_page =
  (World ∅ ([] ++ [@read_request demo_backend (VStr "jwt-ada@example.org") (VStr "n1")]) []
     (Page signed_in (NavBar.State (VArr [demo_notification]) true) []),
   inr tt).
Proof.
  exact (@notification_click_rejected demo_backend (VStr "jwt-ada@example.org")
           [("id", VStr "n1"); ("door_id", VStr "door-A"); ("is_read", VBool false);
            ("title", VStr "New comment")]
           navbar_page VUndefined eq_refl).
Defined.

Lemma notification_click_fulfilled_witness :
  @NavBar.handleNotificationClick full_backend (VStr "jwt-ada@example.org")
    demo_notification navbar_page =
  (World ∅
     ([] ++ [@read_request full_backend (VStr "jwt-ada@example.org") (VStr "n1")]
         ++ [@notifications_request full_backend (VStr "jwt-ada@example.org")]) []
     (Page signed_in (NavBar.State (VArr [demo_notification]) false)
        ([] ++ ["/doors/door-A"])),
   inr tt).
Proof.
  exact (@notification_click_fulfilled full_backend (VStr "jwt-ada@example.org")
           [("id", VStr "n1"); ("door_id", VStr "door-A"); ("is_read", VBool false);
            ("title", VStr "New comment")]
           navbar_page (VObj []) eq_refl).
Defined.

(** One notification unread and one read. *)
Lemma unreadCount_bounds_witness :
  (1 ≤ length [demo_notification; VObj [("id", VStr "n2"); ("is_read", VBool true)]])%nat ∧
  (1%nat = 0%nat ↔
   Forall (λ x, truthy (opt_prop x "is_read") = true)
     [demo_notification; VObj [("id", VStr "n2"); ("is_read", VBool true)]]).
Proof.
  exact (unreadCount_bounds
           [demo_notification; VObj [("id", VStr "n2"); ("is_read", VBool true)]] 1
           eq_refl).
Defined.

(** A form without its image. *)
Lemma AddDoor_submit_incomplete_witness :
  requests (@AddDoor.onSubmit full_backend (VStr "jwt-ada@example.org"))
    (door_form VNull "A" VNull) = [] ∧
  navigated (ui (exec (@AddDoor.onSubmit full_backend (VStr "jwt-ada@example.org"))
                   (door_form VNull "A" VNull))) = [] ∧
  AddDoor.error (own (ui (exec (@AddDoor.onSubmit full_backend (VStr "jwt-ada@example.org"))
                            (door_form VNull "A" VNull)))) = "Please select an image" ∧
  AddDoor.submitting
    (own (ui (exec (@AddDoor.onSubmit full_backend (VStr "jwt-ada@example.org"))
                (door_form VNull "A" VNull)))) = false.
Proof.
  exact (@AddDoor_submit_incomplete full_backend (VStr "jwt-ada@example.org")
           (door_form VNull "A" VNull) "Please select an image" eq_refl).
Defined.

(** A complete form, accepted by [full_server]. *)
Lemma AddDoor_submit_complete_witness :
  requests (@AddDoor.onSubmit full_backend (VStr "jwt-ada@example.org"))
    (door_form (VFile "gate.jpg") "A"
       (VObj [("latitude", VNum "52.5"); ("longitude", VNum "13.4")]))
  = [@new_door_request full_backend (VStr "jwt-ada@example.org")
       (AddDoor.State "Blue gate" "By the canal" EmptyString EmptyString "A"
          (VFile "gate.jpg") VNull
          (VObj [("latitude", VNum "52.5"); ("longitude", VNum "13.4")])
          false false EmptyString)
       (VNum "52.5") (VNum "13.4")] ∧
  navigated (ui (exec (@AddDoor.onSubmit full_backend (VStr "jwt-ada@example.org"))
                   (door_form (VFile "gate.jpg") "A"
                      (VObj [("latitude", VNum "52.5"); ("longitude", VNum "13.4")]))))
  = [] ++ ["/"].
Proof.
  pose proof (@AddDoor_submit_complete full_backend (VStr "jwt-ada@example.org")
                (door_form (VFile "gate.jpg") "A"
                   (VObj [("latitude", VNum "52.5"); ("longitude", VNum "13.4")]))
                _ eq_refl eq_refl) as (Hsent & _ & _ & Hok & _).
  split; [exact Hsent |].
  exact (proj1 (Hok (VObj [("id", VStr "door-new")]) eq_refl)).
Defined.

Lemma AddDoor_posts_the_position_witness :
  requests (@AddDoor.onSubmit full_backend (VStr "jwt-ada@example.org"))
    (exec (with_own (AddDoor.effect (Position (VNum "52.5") (VNum "13.4"))))
       (door_form (VFile "gate.jpg") "A" VNull))
  = [@new_door_request full_backend (VStr "jwt-ada@example.org")
       (own (ui (door_form (VFile "gate.jpg") "A" VNull))) (VNum "52.5") (VNum "13.4")].
Proof.
  exact (@AddDoor_posts_the_position full_backend (VStr "jwt-ada@example.org")
           (VNum "52.5") (VNum "13.4") (door_form (VFile "gate.jpg") "A" VNull)
           eq_refl ltac:(discriminate)).
Defined.

Lemma AddDoor_without_position_witness :
  requests (@AddDoor.onSubmit full_backend (VStr "jwt-ada@example.org"))
    (exec (with_own (AddDoor.effect Failed)) (door_form (VFile "gate.jpg") "A" VNull))
  = [].
Proof.
  exact (@AddDoor_without_position full_backend (VStr "jwt-ada@example.org") Failed
           (door_form (VFile "gate.jpg") "A" VNull) eq_refl
           (λ latitude longitude, ltac:(discriminate))).
Defined.

(** [demo_server] has no door by id; [full_server] has [door-A] and its
    comment. *)
Lemma DoorDetail_door_rejected_witness :
  requests (@DoorDetail.fetchDoorAndComments demo_backend (VStr "t") (VStr "door-A")) door_page
    = [@door_request demo_backend (VStr "t") (VStr "door-A")] ∧
  navigated (ui (exec (@DoorDetail.fetchDoorAndComments demo_backend (VStr "t") (VStr "door-A"))
                   door_page)) = [] ++ ["/"] ∧
  DoorDetail.door
    (own (ui (exec (@DoorDetail.fetchDoorAndComments demo_backend (VStr "t") (VStr "door-A"))
                door_page))) = VNull ∧
  DoorDetail.comments
    (own (ui (exec (@DoorDetail.fetchDoorAndComments demo_backend (VStr "t") (VStr "door-A"))
                door_page))) = VArr [] ∧
  DoorDetail.loading
    (own (ui (exec (@DoorDetail.fetchDoorAndComments demo_backend (VStr "t") (VStr "door-A"))
                door_page))) = false.
Proof.
  exact (@DoorDetail_door_rejected demo_backend (VStr "t") (VStr "door-A") door_page
           VUndefined eq_refl).
Defined.

Lemma DoorDetail_loaded_witness :
  requests (@DoorDetail.fetchDoorAndComments full_backend (VStr "t") (VStr "door-A")) door_page
    = [@door_request full_backend (VStr "t") (VStr "door-A");
       @comments_request full_backend (VStr "t") (VStr "door-A")] ∧
  DoorDetail.door
    (own (ui (exec (@DoorDetail.fetchDoorAndComments full_backend (VStr "t") (VStr "door-A"))
                door_page))) = demo_door "A" ∧
  DoorDetail.comments
    (own (ui (exec (@DoorDetail.fetchDoorAndComments full_backend (VStr "t") (VStr "door-A"))
                door_page))) = VArr [VObj [("id", VStr "c1"); ("text", VStr "first")]] ∧
  DoorDetail.loading
    (own (ui (exec (@DoorDetail.fetchDoorAndComments full_backend (VStr "t") (VStr "door-A"))
                door_page))) = false ∧
  navigated (ui (exec (@DoorDetail.fetchDoorAndComments full_backend (VStr "t") (VStr "door-A"))
                   door_page)) = [].
Proof.
  exact (@DoorDetail_loaded full_backend (VStr "t") (VStr "door-A") door_page
           (demo_door "A") (VArr [VObj [("id", VStr "c1"); ("text", VStr "first")]])
           eq_refl eq_refl).
Defined.

Lemma DoorDetail_comments_rejected_witness :
  requests (@DoorDetail.fetchDoorAndComments (first_only_backend (demo_door "A"))
              (VStr "t") (VStr "door-A")) door_page
    = [@door_request (first_only_backend (demo_door "A")) (VStr "t") (VStr "door-A");
       @comments_request (first_only_backend (demo_door "A")) (VStr "t") (VStr "door-A")] ∧
  DoorDetail.door
    (own (ui (exec (@DoorDetail.fetchDoorAndComments (first_only_backend (demo_door "A"))
                      (VStr "t") (VStr "door-A")) door_page))) = demo_door "A" ∧
  DoorDetail.comments
    (own (ui (exec (@DoorDetail.fetchDoorAndComments (first_only_backend (demo_door "A"))
                      (VStr "t") (VStr "door-A")) door_page))) = VArr [] ∧
  DoorDetail.loading
    (own (ui (exec (@DoorDetail.fetchDoorAndComments (first_only_backend (demo_door "A"))
                      (VStr "t") (VStr "door-A")) door_page))) = false ∧
  navigated (ui (exec (@DoorDetail.fetchDoorAndComments (first_only_backend (demo_door "A"))
                         (VStr "t") (VStr "door-A")) door_page)) = [] ++ ["/"].
Proof.
  exact (@DoorDetail_comments_rejected (first_only_backend (demo_door "A"))
           (VStr "t") (VStr "door-A") door_page (demo_door "A") VUndefined eq_refl eq_refl).
Defined.

Lemma load_type_and_comment_witness :
  exec (with_own (@DoorDetail.onSubmit full_backend (VStr "t") (VStr "door-A")))
    (exec (with_own (DoorDetail.setNewComment "second"))
       (exec (@DoorDetail.fetchDoorAndComments full_backend (VStr "t") (VStr "door-A"))
          door_page)) =
  World ∅
    ([] ++ [@door_request full_backend (VStr "t") (VStr "door-A");
            @comments_request full_backend (VStr "t") (VStr "door-A");
            @comment_request full_backend (VStr "t") (VStr "door-A") "second"])
    []
    (Page signed_in
       (DoorDetail.State (demo_door "A")
          (VArr ([VObj [("id", VStr "c1"); ("text", VStr "first")]]
                 ++ [VObj [("id", VStr "c9"); ("text", VStr "second");
                           ("door_id", VStr "door-A")]]))
          EmptyString false false)
       []).
Proof.
  exact (@load_type_and_comment full_backend (VStr "t") (VStr "door-A") door_page
           (demo_door "A") [VObj [("id", VStr "c1"); ("text", VStr "first")]] "second"
           (VObj [("id", VStr "c9"); ("text", VStr "second"); ("door_id", VStr "door-A")])
           ltac:(discriminate) eq_refl eq_refl eq_refl).
Defined.

(** The filter [A] is chosen on a page that shows every door. *)
Lemma filter_click_then_fetch_witness :
  @Home.effect demo_backend true (VStr "jwt-ada@example.org")
    (exec (Home.onClick Category_A) (new_tab Home.init)) =
  (World ∅ ([] ++ [@doors_request demo_backend (VStr "jwt-ada@example.org") (Some A)]) []
     (Home.State
        (match demo_server [] (@doors_request demo_backend (VStr "jwt-ada@example.org")
                                 (Some A)) with
         | Fulfilled data => data
         | Rejected _ => VArr []
         end)
        false (VStr "A")),
   inr tt).
Proof.
  exact (@filter_click_then_fetch demo_backend Category_A (VStr "jwt-ada@example.org")
           (new_tab Home.init) ltac:(discriminate)).
Defined.
